(** * Model-graded classifiers of [js/llm.ts]

    A shallow embedding of the classification pipeline: the schema builder
    [buildClassificationFunctions], the response parser [parseResponse], the
    invoker [OpenAIClassifier] and the classifier builders
    [LLMClassifierFromTemplate] / [LLMClassifierFromSpec].

    JavaScript values are embedded as they exist at run time: objects are
    ordered property lists looked up through [Object.prototype], optional
    arguments are properties that may be missing or hold [undefined], numbers
    are binary64 floats, and exceptions are an explicit [Throw] outcome. *)

From Stdlib Require Import List String Ascii Bool Arith Lia PrimFloat.
From Stdlib Require Import DecimalString.
Import ListNotations.
Open Scope list_scope.
Open Scope string_scope.

(** ** The fragment of the JavaScript runtime the module relies on *)

Module Js.

(** Thrown values.  [Error] carries the message given to [new Error(..)];
    the engine's own [TypeError] / [SyntaxError] messages are not modelled. *)
Inductive JsError : Type :=
| Error (message : string)
| TypeError
| SyntaxError.

Inductive Result (A : Type) : Type :=
| Ok (a : A)
| Throw (e : JsError).
Arguments Ok {A} a.
Arguments Throw {A} e.

Definition bind {A B} (r : Result A) (k : A -> Result B) : Result B :=
  match r with
  | Ok a => k a
  | Throw e => Throw e
  end.

(** Values: the data that JSON, YAML and object literals can hold.
    [VObject] is an ordinary object, one whose prototype is
    [Object.prototype], as a literal, [JSON.parse] and [yaml.load] create
    them.  [VBuiltin k] stands for the member [k] such an object inherits
    from its prototype (a built-in function, or the prototype itself for
    [__proto__]); all that matters of it here is that it is not
    [undefined]. *)
#[warnings="-register-all"]
Inductive JsValue : Type :=
| VUndefined
| VNull
| VBool (b : bool)
| VNumber (n : float)
| VString (s : string)
| VArray (items : list JsValue)
| VObject (props : list (string * JsValue))
| VBuiltin (name : string).

(** An ordinary object: its own enumerable properties, in the order
    [Object.keys] reports them. *)
Definition JsObject : Type := list (string * JsValue).

Definition is_undefined (v : JsValue) : bool :=
  match v with VUndefined => true | _ => false end.

Definition is_nullish (v : JsValue) : bool :=
  match v with VUndefined | VNull => true | _ => false end.

(** ToBoolean. *)
Definition truthy (v : JsValue) : bool :=
  match v with
  | VUndefined | VNull => false
  | VBool b => b
  | VNumber n => negb (PrimFloat.eqb n 0%float || PrimFloat.is_nan n)
  | VString s => negb (String.eqb s "")
  | VArray _ | VObject _ | VBuiltin _ => true
  end.

(** [a || b] and [a ?? b]. *)
Definition or_else (a b : JsValue) : JsValue := if truthy a then a else b.
Definition coalesce (a b : JsValue) : JsValue := if is_nullish a then b else a.

(** *** Property access *)

Fixpoint own_get (o : JsObject) (k : string) : option JsValue :=
  match o with
  | [] => None
  | (k', v) :: o' => if String.eqb k' k then Some v else own_get o' k
  end.

(** The property names of [Object.prototype]. *)
Definition Object_prototype_keys : list string :=
  [ "constructor"; "hasOwnProperty"; "isPrototypeOf"; "propertyIsEnumerable";
    "toLocaleString"; "toString"; "valueOf"; "__proto__";
    "__defineGetter__"; "__defineSetter__"; "__lookupGetter__";
    "__lookupSetter__" ].

Definition inherited (k : string) : bool :=
  existsb (String.eqb k) Object_prototype_keys.

(** [o[k]] on an ordinary object.  Property access walks the prototype
    chain (OrdinaryGet): an own property first, then [Object.prototype]. *)
Definition get_property (o : JsObject) (k : string) : JsValue :=
  match own_get o k with
  | Some v => v
  | None => if inherited k then VBuiltin k else VUndefined
  end.

(** *** Object construction *)

(** [o[k] = v]: an existing key keeps its place, a new one goes last.  (The
    engine lists keys that look like array indices first; the only object
    this module enumerates, [choiceScores], is taken in its listed order.) *)
Fixpoint obj_set (o : JsObject) (k : string) (v : JsValue) : JsObject :=
  match o with
  | [] => [(k, v)]
  | (k', v') :: o' =>
      if String.eqb k' k then (k', v) :: o' else (k', v') :: obj_set o' k v
  end.

Definition obj_assign (o src : JsObject) : JsObject :=
  fold_left (fun acc kv => obj_set acc (fst kv) (snd kv)) src o.

Definition index_key (i : nat) : string :=
  NilEmpty.string_of_uint (Nat.to_uint i).

Fixpoint indexed (i : nat) (xs : list JsValue) : JsObject :=
  match xs with
  | [] => []
  | x :: xs' => (index_key i, x) :: indexed (S i) xs'
  end.

Fixpoint characters (s : string) : list JsValue :=
  match s with
  | EmptyString => []
  | String c s' => VString (String c EmptyString) :: characters s'
  end.

(** The own enumerable properties copied by [{...v}]. *)
Definition own_props (v : JsValue) : JsObject :=
  match v with
  | VObject o => o
  | VArray xs => indexed 0 xs
  | VString s => indexed 0 (characters s)
  | _ => []
  end.

(** An object literal [{ k: v, ...s, k': v' }], entries left to right. *)
Inductive Entry : Type :=
| Field (k : string) (v : JsValue)
| Spread (v : JsValue).

Definition add_entry (o : JsObject) (e : Entry) : JsObject :=
  match e with
  | Field k v => obj_set o k v
  | Spread v => obj_assign o (own_props v)
  end.

Definition object_literal (es : list Entry) : JsObject :=
  fold_left add_entry es [].

(** The rest element of [const { k1, .., kn, ...rest } = o]. *)
Definition obj_rest (o : JsObject) (ks : list string) : JsObject :=
  filter (fun kv => negb (existsb (String.eqb (fst kv)) ks)) o.

Definition Object_keys (o : JsObject) : list string := map fst o.

(** *** Strings *)

(** [String.prototype.startsWith]. *)
Definition startsWith (s p : string) : bool := String.prefix p s.

(** White space and line terminators removed by [trim], on the UTF-8
    encoding of the string: U+0009..U+000D and U+0020 are one byte, U+00A0
    two bytes, the others three. *)
Local Open Scope nat_scope.

Definition ws1 (c : ascii) : bool :=
  let n := nat_of_ascii c in ((9 <=? n) && (n <=? 13)) || (n =? 32).

Definition ws2 (a b : ascii) : bool :=
  (nat_of_ascii a =? 194) && (nat_of_ascii b =? 160).

Definition ws3 (a b c : ascii) : bool :=
  let x := nat_of_ascii a in
  let y := nat_of_ascii b in
  let z := nat_of_ascii c in
  ((x =? 225) && (y =? 154) && (z =? 128))                  (* U+1680 *)
  || ((x =? 226) && (y =? 128) &&
      (((128 <=? z) && (z <=? 138))                         (* U+2000..200A *)
       || (z =? 168) || (z =? 169) || (z =? 175)))          (* U+2028/9, 202F *)
  || ((x =? 226) && (y =? 129) && (z =? 159))               (* U+205F *)
  || ((x =? 227) && (y =? 128) && (z =? 128))               (* U+3000 *)
  || ((x =? 239) && (y =? 187) && (z =? 191)).              (* U+FEFF *)

Fixpoint trimStart (s : string) : string :=
  match s with
  | String a s1 =>
      if ws1 a then trimStart s1
      else
        match s1 with
        | String b s2 =>
            if ws2 a b then trimStart s2
            else
              match s2 with
              | String c s3 => if ws3 a b c then trimStart s3 else s
              | EmptyString => s
              end
        | EmptyString => s
        end
  | EmptyString => s
  end.

Fixpoint rev_string (s acc : string) : string :=
  match s with
  | EmptyString => acc
  | String c s' => rev_string s' (String c acc)
  end.

(** The same scan from the right, on the reversed string. *)
Fixpoint trimStart_rev (s : string) : string :=
  match s with
  | String a s1 =>
      if ws1 a then trimStart_rev s1
      else
        match s1 with
        | String b s2 =>
            if ws2 b a then trimStart_rev s2
            else
              match s2 with
              | String c s3 => if ws3 c b a then trimStart_rev s3 else s
              | EmptyString => s
              end
        | EmptyString => s
        end
  | EmptyString => s
  end.

Definition trimEnd (s : string) : string :=
  rev_string (trimStart_rev (rev_string s "")) "".

Definition trim (s : string) : string := trimEnd (trimStart s).

Definition newline : string := String (ascii_of_nat 10) EmptyString.

End Js.
Export Js.

Declare Scope js_scope.
Notation "x <- r ;; k" := (bind r (fun x => k))
  (at level 61, r at next level, right associativity) : js_scope.
Open Scope js_scope.

(** ** What the host supplies

    [JSON.parse], [mustache.render], the conversion of non-string values to
    strings and member access on primitives and arrays are library or engine
    code.  They are parameters of the development: every theorem holds
    whatever they do. *)

Class Runtime : Type := {
  (** [JSON.parse(text)]; throws [SyntaxError] on malformed text. *)
  JSON_parse : string -> Result JsValue;
  (** ToString of a value that is neither a string nor nullish. *)
  ToString : JsValue -> Result string;
  (** [v[k]] when [v] is a primitive or an array. *)
  exotic_get : JsValue -> string -> Result JsValue;
  (** [mustache.render(template, view)]; throws on a malformed template. *)
  mustache_render : string -> JsObject -> Result string
}.

(** The declarative classifier definition read from a YAML template. *)
Record ModelGradedSpec : Type := {
  prompt : string;
  choice_scores : JsObject;
  spec_model : JsValue;
  use_cot : JsValue;
  spec_temperature : JsValue
}.

(** The provider's reply, as typed by the OpenAI SDK. *)
Record FunctionCall : Type := {
  arguments : string;
  fname : string
}.

Record ChatCompletionMessage : Type := {
  content : option string;
  function_call : option FunctionCall
}.

Record Choice : Type := { message : ChatCompletionMessage }.

Record ChatCompletion : Type := { choices : list Choice }.

(** [Omit<Score, "name">], what the parser returns, and [Score], which is
    [{ name, ...result }]. *)
Record ParsedScore : Type := {
  score : JsValue;
  metadata : JsObject
}.

Record Score : Type := {
  name : JsValue;
  result : ParsedScore
}.

Definition NO_COT_SUFFIX : string :=
  "Answer the question by calling `select_choice` with a single choice from {{__choices}}.".

Definition COT_SUFFIX : string :=
  "Answer the question by calling `select_choice` with your reasoning in a step-by-step manner to be sure that your conclusion is correct. Avoid simply stating the correct answer at the outset. Select a single choice by setting the `choice` parameter to a single choice from {{__choices}}.".

Definition SUPPORTED_MODELS : list string := ["gpt-3.5-turbo"; "gpt-4"].

Definition PLAIN_RESPONSE_SCHEMA : JsObject :=
  [ ("properties", VObject
       [ ("choice", VObject [ ("description", VString "The choice");
                              ("title", VString "Choice");
                              ("type", VString "string") ]) ]);
    ("required", VArray [VString "choice"]);
    ("title", VString "FunctionResponse");
    ("type", VString "object") ].

Definition COT_RESPONSE_SCHEMA : JsObject :=
  [ ("properties", VObject
       [ ("reasons", VObject
            [ ("description", VString "Write out in a step by step manner your reasoning to be sure that your conclusion is correct. Avoid simply stating the correct answer at the outset.");
              ("items", VObject [ ("type", VString "string") ]);
              ("title", VString "Reasons");
              ("type", VString "array") ]);
         ("choice", VObject [ ("description", VString "The choice");
                              ("title", VString "Choice");
                              ("type", VString "string") ]) ]);
    ("required", VArray [VString "reasons"; VString "choice"]);
    ("title", VString "CoTResponse");
    ("type", VString "object") ].

(** [v.k] where [v] is one of the schema constants above or a part of one. *)
Definition dot (v : JsValue) (k : string) : JsValue :=
  match v with
  | VObject o => get_property o k
  | _ => VUndefined
  end.

Definition strings (xs : list string) : JsValue := VArray (map VString xs).

Definition buildClassificationFunctions
    (useCoT : JsValue) (choiceStrings : list string) : JsValue :=
  let params :=
    VObject (if truthy useCoT then COT_RESPONSE_SCHEMA else PLAIN_RESPONSE_SCHEMA) in
  let enumParams :=
    object_literal
      [ Spread params;
        Field "properties" (VObject (object_literal
          [ Spread (dot params "properties");
            Field "choice" (VObject (object_literal
              [ Spread (dot (dot params "properties") "choice");
                Field "enum" (strings choiceStrings) ])) ])) ] in
  VArray
    [ VObject (object_literal
        [ Field "name" (VString "select_choice");
          Field "description" (VString "Call this function to select a choice.");
          Field "parameters" (VObject enumParams) ]) ].

Section Parser.

Context {rt : Runtime}.

(** [v[k]] on any value. *)
Definition get_member (v : JsValue) (k : string) : Result JsValue :=
  match v with
  | VUndefined | VNull => Throw TypeError
  | VObject o => Ok (get_property o k)
  | _ => exotic_get v k
  end.

(** [Array.prototype.join]: nullish elements print as the empty string. *)
Definition join_element (x : JsValue) : Result string :=
  match x with
  | VUndefined | VNull => Ok ""
  | VString s => Ok s
  | _ => ToString x
  end.

Fixpoint Array_join (sep : string) (xs : list JsValue) : Result string :=
  match xs with
  | [] => Ok ""
  | x :: rest =>
      s <- join_element x ;;
      match rest with
      | [] => Ok s
      | _ => r <- Array_join sep rest ;; Ok (s ++ sep ++ r)
      end
  end.

(** [v?.join(sep)]: [undefined] on a nullish [v]; a value without a
    callable [join] (anything but an array) makes the call a TypeError. *)
Definition optional_join (v : JsValue) (sep : string) : Result JsValue :=
  match v with
  | VUndefined | VNull => Ok VUndefined
  | VArray xs => s <- Array_join sep xs ;; Ok (VString s)
  | _ => Throw TypeError
  end.

(** [v.trim()]: only strings have a callable [trim]. *)
Definition call_trim (v : JsValue) : Result string :=
  match v with
  | VString s => Ok (trim s)
  | _ => Throw TypeError
  end.

Definition parseResponse
    (resp : ChatCompletionMessage) (choiceScores : JsValue)
    : Result ParsedScore :=
  fc <- match function_call resp with
        | Some fc => Ok fc
        | None => Throw TypeError
        end ;;
  args <- JSON_parse (arguments fc) ;;
  reasons <- get_member args "reasons" ;;
  rationale <- optional_join reasons newline ;;
  let metadata := obj_set [] "rationale" rationale in
  choice_arg <- get_member args "choice" ;;
  choice <- call_trim choice_arg ;;
  let metadata := obj_set metadata "choice" (VString choice) in
  found <- get_member choiceScores choice ;;
  if negb (is_undefined found) then
    Ok {| score := found; metadata := metadata |}
  else
    Throw (Error ("Unknown score choice " ++ choice)).

End Parser.

(** ** The invoker and the classifier builders *)

Section Classifier.

Context {rt : Runtime}.

(** The cache backend's state; the backend itself is a collaborator. *)
Variable Store : Type.

(** The [ChatCache] interface: [get(params)] and [set(params, response)]. *)
Record ChatCache : Type := {
  cache_get : Store -> JsObject -> option ChatCompletion;
  cache_set : Store -> JsObject -> ChatCompletion -> Store
}.

(** What an invocation does to the outside world, oldest first. *)
Inductive Event : Type :=
| CacheGet (params : JsObject)
| NetworkCall (auth params : JsObject)
| CacheSet (params : JsObject) (response : ChatCompletion).

Record World : Type := {
  store : Store;
  trace : list Event
}.

(** The model provider.  Its reply may depend on everything that happened
    before, so two calls with one request need not agree. *)
Variable provider : list Event -> JsObject -> JsObject -> ChatCompletion.

(** [yaml.load] of a bundled template, cast to [ModelGradedSpec], and the
    [templates] table of [./templates]. *)
Variable yaml_load : string -> Result ModelGradedSpec.
Variable templates : string -> string.

(** Stateful computations that may throw; the world keeps what was done
    before the throw. *)
Definition M (A : Type) : Type := World -> Result A * World.

Definition lift {A} (r : Result A) : M A := fun w => (r, w).

Definition bindM {A B} (m : M A) (k : A -> M B) : M B :=
  fun w =>
    match m w with
    | (Ok a, w') => k a w'
    | (Throw e, w') => (Throw e, w')
    end.

Definition emit (w : World) (s : Store) (es : list Event) : World :=
  {| store := s; trace := (trace w ++ es)%list |}.

Record Options : Type := {
  cache : option ChatCache;
  auth : JsObject
}.

(** Modelled from the spec: [cachedChatCompletion] of [./oai] is not among
    the sources.  Section 4.3: the request is the cache key; on a hit the
    stored response is returned without a network call; on a miss exactly
    one network call is made, the response is stored under the request
    (best effort: [cache_set] may do anything to the store but cannot fail
    the call) and returned.  Without a cache handle there is nothing to
    look up or store, and the provider is called. *)
Definition cachedChatCompletion
    (params : JsObject) (options : Options) : M ChatCompletion :=
  fun w =>
    match cache options with
    | Some c =>
        match cache_get c (store w) params with
        | Some stored => (Ok stored, emit w (store w) [CacheGet params])
        | None =>
            let completion :=
              provider (trace w ++ [CacheGet params])%list (auth options) params in
            (Ok completion,
             emit w (cache_set c (store w) params completion)
                  [ CacheGet params;
                    NetworkCall (auth options) params;
                    CacheSet params completion ])
        end
    | None =>
        let completion := provider (trace w) (auth options) params in
        (Ok completion, emit w (store w) [NetworkCall (auth options) params])
    end.

Fixpoint map_result {A B} (f : A -> Result B) (xs : list A) : Result (list B) :=
  match xs with
  | [] => Ok []
  | x :: xs' => y <- f x ;; ys <- map_result f xs' ;; Ok (y :: ys)
  end.

(** Lines 109-120: the loop over [SUPPORTED_MODELS] and the check after it.
    [model.startsWith] needs a string. *)
Definition check_model (model : JsValue) : Result unit :=
  match model with
  | VString s =>
      let found := existsb (startsWith s) SUPPORTED_MODELS in
      if negb found then
        Throw (Error ("Unsupported model: " ++ s
                      ++ ". Currently only supports OpenAI chat models."))
      else Ok tt
  | _ => Throw TypeError
  end.

(** One step of [messagesArg.map]:
    [{ ...m, content: m.content ? mustache.render(m.content, renderArgs) : "" }];
    [mustache.render] rejects a template that is not a string. *)
Definition render_message (renderArgs : JsObject) (m : JsValue) : Result JsValue :=
  c <- get_member m "content" ;;
  rendered <- (if truthy c then
                 match c with
                 | VString template => mustache_render template renderArgs
                 | _ => Throw TypeError
                 end
               else Ok "") ;;
  Ok (VObject (object_literal [ Spread m; Field "content" (VString rendered) ])).

Definition auth_keys : list string :=
  [ "openAiApiKey"; "openAiOrganizationId"; "openAiBaseUrl";
    "openAiDefaultHeaders"; "openAiDangerouslyAllowBrowser" ].

(** The keys taken out by the first destructuring of [args]. *)
Definition destructured : list string :=
  "name" :: "output" :: "expected" :: auth_keys.

(** Lines 86-145 of [OpenAIClassifier]: everything up to the request handed
    to [cachedChatCompletion].  [cache], the one argument that is not
    plain data, travels beside the argument object. *)
Definition completionParams (args : JsObject) : Result JsObject :=
  let output := get_property args "output" in
  let expected := get_property args "expected" in
  let remaining := obj_rest args destructured in
  let messagesArg := get_property remaining "messages" in
  let model := get_property remaining "model" in
  let classificationFunctions := get_property remaining "classificationFunctions" in
  let maxTokens := get_property remaining "maxTokens" in
  let temperature := get_property remaining "temperature" in
  let remainingRenderArgs :=
    obj_rest remaining
      [ "messages"; "model"; "choiceScores"; "classificationFunctions";
        "maxTokens"; "temperature"; "cache" ] in
  _ <- check_model model ;;
  let extraArgs :=
    object_literal [ Field "temperature" (or_else temperature (VNumber 0%float));
                     Field "max_tokens" maxTokens ] in
  let renderArgs :=
    object_literal [ Field "output" output;
                     Field "expected" expected;
                     Spread (VObject remainingRenderArgs) ] in
  messages <- match messagesArg with
              | VArray ms => map_result (render_message renderArgs) ms
              | _ => Throw TypeError
              end ;;
  Ok (object_literal
        [ Field "model" model;
          Field "messages" (VArray messages);
          Field "functions" classificationFunctions;
          Field "function_call"
            (VObject (object_literal [ Field "name" (VString "select_choice") ]));
          Spread (VObject extraArgs) ]).

(** The second argument of [cachedChatCompletion]: the cache handle and the
    five authentication properties of [args]. *)
Definition completionOptions (args : JsObject) (cache : option ChatCache) : Options :=
  {| cache := cache;
     auth := object_literal
               (map (fun k => Field k (get_property args k)) auth_keys) |}.

(** Lines 138-163: the cached completion, then the score parsed from its
    first choice under the invocation's [name]. *)
Definition OpenAIClassifier (args : JsObject) (cache : option ChatCache) : M Score :=
  let name := get_property args "name" in
  let remaining := obj_rest args destructured in
  let choiceScores := get_property remaining "choiceScores" in
  bindM (lift (completionParams args)) (fun params =>
  bindM (cachedChatCompletion params (completionOptions args cache)) (fun resp =>
  match choices resp with
  | first :: _ =>
      lift (parsed <- parseResponse (message first) choiceScores ;;
            Ok {| name := name; result := parsed |})
  | [] => lift (Throw (Error "Empty response from OpenAI"))
  end)).

(** The argument of [LLMClassifierFromTemplate]. *)
Record TemplateArgs : Type := {
  t_name : string;
  promptTemplate : string;
  choiceScores : JsObject;
  t_model : JsValue;
  t_useCoT : JsValue;
  t_temperature : JsValue
}.

(** A destructuring default [k = d]: used when the property is [undefined]. *)
Definition default_to (v d : JsValue) : JsValue :=
  if is_undefined v then d else v.

(** [runtimeArgs.useCoT ?? useCoTArg ?? true] *)
Definition effective_useCoT (t : TemplateArgs) (runtimeArgs : JsObject) : JsValue :=
  coalesce (coalesce (get_property runtimeArgs "useCoT") (t_useCoT t)) (VBool true).

(** [promptTemplate + "\n" + (useCoT ? COT_SUFFIX : NO_COT_SUFFIX)] *)
Definition classifier_prompt (t : TemplateArgs) (useCoT : JsValue) : string :=
  promptTemplate t ++ newline ++ (if truthy useCoT then COT_SUFFIX else NO_COT_SUFFIX).

(** The object [LLMClassifierFromTemplate] passes to [OpenAIClassifier]. *)
Definition classifier_args (t : TemplateArgs) (runtimeArgs : JsObject) : JsObject :=
  let model := default_to (t_model t) (VString "gpt-3.5-turbo") in
  let choiceStrings := Object_keys (choiceScores t) in
  let useCoT := effective_useCoT t runtimeArgs in
  let prompt := classifier_prompt t useCoT in
  let maxTokens := VNumber 512%float in
  let messages :=
    VArray [ VObject (object_literal [ Field "role" (VString "user");
                                       Field "content" (VString prompt) ]) ] in
  object_literal
    [ Field "name" (VString (t_name t));
      Field "messages" messages;
      Field "choiceScores" (VObject (choiceScores t));
      Field "classificationFunctions"
        (buildClassificationFunctions useCoT choiceStrings);
      Field "model" model;
      Field "maxTokens" maxTokens;
      Field "temperature" (t_temperature t);
      Field "__choices" (strings choiceStrings);
      Spread (VObject runtimeArgs);
      Field "useCoT" useCoT ].

(** The scorer [ret] that [LLMClassifierFromTemplate] returns.  A cache
    handle among the runtime arguments reaches the invoker through the
    spread; here it is the scorer's second argument. *)
Definition LLMClassifierFromTemplate (t : TemplateArgs)
    : JsObject -> option ChatCache -> M Score :=
  fun runtimeArgs cache => OpenAIClassifier (classifier_args t runtimeArgs) cache.

Definition LLMClassifierFromSpec (name : string) (spec : ModelGradedSpec)
    : JsObject -> option ChatCache -> M Score :=
  LLMClassifierFromTemplate
    {| t_name := name;
       promptTemplate := prompt spec;
       choiceScores := choice_scores spec;
       t_model := spec_model spec;
       t_useCoT := use_cot spec;
       t_temperature := spec_temperature spec |}.

Definition LLMClassifierFromSpecFile (name templateName : string)
    : Result (JsObject -> option ChatCache -> M Score) :=
  doc <- yaml_load (templates templateName) ;;
  Ok (LLMClassifierFromSpec name doc).

End Classifier.

Arguments cache_get {Store} c s params.
Arguments cache_set {Store} c s params response.
Arguments store {Store} w.
Arguments trace {Store} w.
Arguments cache {Store} o.
Arguments auth {Store} o.
Arguments cachedChatCompletion {Store} provider params options w.
Arguments completionOptions {Store} args cache.
Arguments OpenAIClassifier {rt Store} provider args cache w.
Arguments LLMClassifierFromTemplate {rt Store} provider t runtimeArgs cache w.
Arguments LLMClassifierFromSpec {rt Store} provider name spec runtimeArgs cache w.
Arguments LLMClassifierFromSpecFile {rt Store} provider yaml_load templates name templateName.

(** ** Vocabulary of the statements *)

Section Vocabulary.

Context {rt : Runtime} {Store : Type}.

Implicit Types (t : TemplateArgs) (args params : JsObject) (c : ChatCache Store).

(** What [reasons] contributes to the metadata when the reply has the shape
    the schema asks for: an array of strings, or no [reasons] at all. *)
Definition rationale_of (reasons : option (list string)) : JsValue :=
  match reasons with
  | Some rs => VString (String.concat newline rs)
  | None => VUndefined
  end.

Definition keys_of (v : JsValue) : list string :=
  match v with
  | VObject o => Object_keys o
  | _ => []
  end.

(** What the invoker does with a completion once it has one. *)
Definition score_of (args : JsObject) (resp : ChatCompletion) : Result Score :=
  match choices resp with
  | first :: _ =>
      parsed <- parseResponse (message first)
                  (get_property (obj_rest args destructured) "choiceScores") ;;
      Ok {| name := get_property args "name"; result := parsed |}
  | [] => Throw (Error "Empty response from OpenAI")
  end.

(** The network calls in a trace. *)
Definition is_network_call (e : Event) : bool :=
  match e with NetworkCall _ _ => true | _ => false end.

Definition network_calls (es : list Event) : nat :=
  List.length (filter is_network_call es).

(** A cache that is available: what was stored under a request is what a
    later lookup of that request finds. *)
Definition available c : Prop :=
  forall s params response,
    cache_get c (cache_set c s params response) params = Some response.

(** The fields of the argument object written before [...runtimeArgs]. *)
Definition template_fields t (useCoT : JsValue) : JsObject :=
  [ ("name", VString (t_name t));
    ("messages",
     VArray [ VObject [ ("role", VString "user");
                        ("content", VString (classifier_prompt t useCoT)) ] ]);
    ("choiceScores", VObject (choiceScores t));
    ("classificationFunctions",
     buildClassificationFunctions useCoT (Object_keys (choiceScores t)));
    ("model", default_to (t_model t) (VString "gpt-3.5-turbo"));
    ("maxTokens", VNumber 512%float);
    ("temperature", t_temperature t);
    ("__choices", strings (Object_keys (choiceScores t))) ].

Definition event_params (e : Event) : JsObject :=
  match e with
  | CacheGet params => params
  | NetworkCall _ params => params
  | CacheSet params _ => params
  end.

(** Whatever a run adds to the trace (cache lookups, network calls, cache
    stores) carries a request that satisfies [P]. *)
Definition requests_satisfy (P : JsObject -> Prop)
    (run : World Store -> Result Score * World Store) : Prop :=
  forall w, exists es,
    trace (snd (run w)) = (trace w ++ es)%list
    /\ Forall (fun e => P (event_params e)) es.

(** The template's prompt renders under every view. *)
Definition renders (template : string) : Prop :=
  forall view, exists s, mustache_render template view = Ok s.

Definition has_model (m : string) (params : JsObject) : Prop :=
  get_property params "model" = VString m.

End Vocabulary.

(** ** A concrete scenario

    A concrete host and a Humor classifier with the scores [{Yes: 1, No: 0}],
    on which the theorems are run at the end. *)

Module Scenario.

Definition quote : string := String (ascii_of_nat 34) EmptyString.

(** ["k": "v"] *)
Definition json_field (k v : string) : string :=
  quote ++ k ++ quote ++ ": " ++ quote ++ v ++ quote.

Definition plain_reply : string := "{" ++ json_field "choice" " Yes " ++ "}".

Definition cot_reply : string :=
  "{" ++ quote ++ "reasons" ++ quote ++ ": ["
      ++ quote ++ "it's a pun" ++ quote ++ ", "
      ++ quote ++ "puns are funny" ++ quote ++ "], "
      ++ json_field "choice" "Yes" ++ "}".

Definition inherited_reply : string := "{" ++ json_field "choice" "toString" ++ "}".

(** [JSON.parse] on the three replies above.  [mustache.render] hands the
    template back unrendered: nothing below depends on the rendered text. *)
Definition host : Runtime :=
  {| JSON_parse := fun text =>
       if String.eqb text plain_reply then
         Ok (VObject [("choice", VString " Yes ")])
       else if String.eqb text cot_reply then
         Ok (VObject [("reasons", strings ["it's a pun"; "puns are funny"]);
                      ("choice", VString "Yes")])
       else if String.eqb text inherited_reply then
         Ok (VObject [("choice", VString "toString")])
       else Throw SyntaxError;
     ToString := fun _ => Throw TypeError;
     exotic_get := fun _ _ => Ok VUndefined;
     mustache_render := fun template _ => Ok template |}.

Definition reply (text : string) : ChatCompletionMessage :=
  {| content := None;
     function_call := Some {| arguments := text; fname := "select_choice" |} |}.

Definition yes_no : JsObject := [("Yes", VNumber 1%float); ("No", VNumber 0%float)].

Definition humor : TemplateArgs :=
  {| t_name := "Humor";
     promptTemplate := "Is this funny?";
     choiceScores := yes_no;
     t_model := VUndefined;
     t_useCoT := VUndefined;
     t_temperature := VUndefined |}.

Definition a_pun : JsObject := [("output", VString "a pun")].

(** A cache with one slot, and a provider that always answers [Yes] with
    its reasons. *)
Definition one_slot : ChatCache (option ChatCompletion) :=
  {| cache_get := fun slot _ => slot;
     cache_set := fun _ _ response => Some response |}.

Definition says_yes (_ : list Event) (_ _ : JsObject) : ChatCompletion :=
  {| choices := [ {| message := reply cot_reply |} ] |}.

Definition says_nothing (_ : list Event) (_ _ : JsObject) : ChatCompletion :=
  {| choices := [] |}.

Definition fresh : World (option ChatCompletion) :=
  {| store := None; trace := [] |}.

End Scenario.

Import Scenario.

(** ** Further vocabulary: the view handed to the template engine *)

(** The [renderArgs] of [OpenAIClassifier], lines 127-131: [output] and
    [expected], then whatever the two destructurings left over. *)
Definition render_view (args : JsObject) : JsObject :=
  object_literal
    [ Field "output" (get_property args "output");
      Field "expected" (get_property args "expected");
      Spread (VObject
                (obj_rest (obj_rest args destructured)
                   [ "messages"; "model"; "choiceScores"; "classificationFunctions";
                     "maxTokens"; "temperature"; "cache" ])) ].

(** The arguments the destructurings take out for good: the scorer's name,
    the credentials and the request settings. *)
Definition withheld : list string :=
  ("name" :: auth_keys
   ++ [ "messages"; "model"; "choiceScores"; "classificationFunctions";
        "maxTokens"; "temperature"; "cache" ])%list.

(** The same host with another template engine. *)
Definition with_mustache (rt : Runtime)
    (render : string -> JsObject -> Result string) : Runtime :=
  {| JSON_parse := @JSON_parse rt;
     ToString := @ToString rt;
     exotic_get := @exotic_get rt;
     mustache_render := render |}.

Definition is_array (v : JsValue) : bool :=
  match v with VArray _ => true | _ => false end.

Definition is_string (v : JsValue) : bool :=
  match v with VString _ => true | _ => false end.

(** The first function of a [functions] array. *)
Definition first_function (functions : JsValue) : JsValue :=
  match functions with
  | VArray (f :: _) => f
  | _ => VUndefined
  end.

(** How a rendered message relates to the one it was made from: an object
    with a string [content] and every other field as before. *)
Definition rendered_from (m m' : JsValue) : Prop :=
  exists props text,
    m' = VObject props
    /\ own_get props "content" = Some (VString text)
    /\ forall k, k <> "content" -> own_get props k = own_get (own_props m) k.

(** ** Further replies and hosts *)

Module Cases.

Definition maybe_reply : string :=
  "{" ++ Scenario.json_field "choice" "Maybe" ++ "}".

Definition one_reason_reply : string :=
  "{" ++ Scenario.json_field "reasons" "because" ++ ", "
      ++ Scenario.json_field "choice" "Yes" ++ "}".

Definition numeric_choice_reply : string :=
  "{" ++ Scenario.quote ++ "choice" ++ Scenario.quote ++ ": 1}".

(** [JSON.parse] on these replies and on the chain-of-thought reply of the
    scenario. *)
Definition desk : Runtime :=
  {| JSON_parse := fun text =>
       if String.eqb text maybe_reply then
         Ok (VObject [("choice", VString "Maybe")])
       else if String.eqb text one_reason_reply then
         Ok (VObject [("reasons", VString "because"); ("choice", VString "Yes")])
       else if String.eqb text numeric_choice_reply then
         Ok (VObject [("choice", VNumber 1%float)])
       else if String.eqb text Scenario.cot_reply then
         Ok (VObject [("reasons", strings ["it's a pun"; "puns are funny"]);
                      ("choice", VString "Yes")])
       else Throw SyntaxError;
     ToString := fun _ => Throw TypeError;
     exotic_get := fun _ _ => Ok VUndefined;
     mustache_render := fun template _ => Ok template |}.

(** A template engine that rejects every template. *)
Definition brittle : Runtime :=
  with_mustache desk (fun _ _ => Throw (Error "Unclosed tag")).

Definition two_messages : JsValue :=
  VArray [ VObject [("role", VString "system"); ("content", VString "Be strict.")];
           VObject [("role", VString "user"); ("content", VString "")] ].

(** A direct invocation of [OpenAIClassifier]. *)
Definition direct : JsObject :=
  [ ("name", VString "Direct");
    ("model", VString "gpt-4-0613");
    ("messages", two_messages);
    ("choiceScores", VObject Scenario.yes_no);
    ("classificationFunctions", buildClassificationFunctions (VBool false) ["Yes"; "No"]);
    ("temperature", VNumber 0.5%float);
    ("openAiApiKey", VString "sk-secret");
    ("output", VString "a pun") ].

End Cases.

Import Cases.

(** ** Vocabulary for what a classifier sends *)

Section Sending.

Context {rt : Runtime} {Store : Type}.

(** From world [w] the run reaches [cachedChatCompletion]: it adds at least
    one event to the trace, and every event it adds (cache lookup, network
    call, cache store) carries a request that satisfies [P]. *)
Definition sends (P : JsObject -> Prop)
    (run : World Store -> Result Score * World Store) (w : World Store) : Prop :=
  exists es,
    trace (snd (run w)) = (trace w ++ es)%list
    /\ es <> []
    /\ Forall (fun e => P (event_params e)) es.

(** Nothing stops the invocation before the request: the caller leaves
    [messages] to the template, the model in effect passes the check and the
    template engine accepts the prompt. *)
Definition goes_through (t : TemplateArgs) (runtimeArgs : JsObject) : Prop :=
  own_get runtimeArgs "messages" = None
  /\ check_model (get_property (classifier_args t runtimeArgs) "model") = Ok tt
  /\ renders (classifier_prompt t (effective_useCoT t runtimeArgs)).

(** The template arguments [LLMClassifierFromSpec] passes on. *)
Definition spec_args (name : string) (spec : ModelGradedSpec) : TemplateArgs :=
  {| t_name := name;
     promptTemplate := prompt spec;
     choiceScores := choice_scores spec;
     t_model := spec_model spec;
     t_useCoT := use_cot spec;
     t_temperature := spec_temperature spec |}.

End Sending.

(** ** Runtime arguments that displace what the template set up *)

Module Overrides.

Definition own_messages : JsValue :=
  VArray [ VObject [("role", VString "user"); ("content", VString "Rate it.")] ].

(** The caller asks for chain of thought and brings a prompt and a plain
    schema of their own. *)
Definition own_prompt_and_schema : JsObject :=
  [ ("output", VString "a pun");
    ("useCoT", VBool true);
    ("messages", own_messages);
    ("classificationFunctions",
     buildClassificationFunctions (VBool false) ["Yes"; "No"]) ].

(** The caller forwards settings they do not have. *)
Definition undefined_maxTokens : JsObject :=
  [ ("output", VString "a pun"); ("maxTokens", VUndefined) ].

Definition undefined_model : JsObject :=
  [ ("output", VString "a pun"); ("model", VUndefined) ].

Definition humor_spec : ModelGradedSpec :=
  {| prompt := "Is this funny?";
     choice_scores := Scenario.yes_no;
     spec_model := VUndefined;
     use_cot := VUndefined;
     spec_temperature := VUndefined |}.

End Overrides.

Import Overrides.

(** * Properties *)

(** ** Objects *)

Section ObjectFacts.

Implicit Types (o src : JsObject) (k : string) (v : JsValue).

Lemma own_get_set_same o k v : own_get (obj_set o k v) k = Some v.
Proof.
  induction o as [|[k' v'] o IH]; simpl.
  - now rewrite String.eqb_refl.
  - destruct (String.eqb k' k) eqn:E; simpl; rewrite E; [reflexivity | exact IH].
Qed.

Lemma own_get_set_other o k k' v :
  k <> k' -> own_get (obj_set o k v) k' = own_get o k'.
Proof.
  intros Hne.
  induction o as [|[k0 v0] o IH]; simpl.
  - apply String.eqb_neq in Hne. now rewrite Hne.
  - destruct (String.eqb k0 k) eqn:E; simpl.
    + apply String.eqb_eq in E. subst k0.
      apply String.eqb_neq in Hne. now rewrite Hne.
    + destruct (String.eqb k0 k'); [reflexivity | exact IH].
Qed.

Lemma get_property_set_same o k v : get_property (obj_set o k v) k = v.
Proof. unfold get_property. now rewrite own_get_set_same. Qed.

Lemma get_property_set_other o k k' v :
  k <> k' -> get_property (obj_set o k v) k' = get_property o k'.
Proof. intros H. unfold get_property. now rewrite own_get_set_other. Qed.

(** A key the source does not have is left alone by a spread. *)
Lemma own_get_assign_absent src : forall o k,
  own_get src k = None -> own_get (obj_assign o src) k = own_get o k.
Proof.
  unfold obj_assign.
  induction src as [|[k0 v0] src IH]; intros o k Habs; simpl in *.
  - reflexivity.
  - destruct (String.eqb k0 k) eqn:E; [discriminate|].
    rewrite IH by exact Habs.
    apply own_get_set_other. now apply String.eqb_neq.
Qed.

Lemma own_get_In o k v : own_get o k = Some v -> In k (Object_keys o).
Proof.
  induction o as [|[k0 v0] o IH]; simpl; [discriminate|].
  destruct (String.eqb k0 k) eqn:E.
  - apply String.eqb_eq in E. now left.
  - intros H. right. now apply IH.
Qed.

(** A key the source has wins over the target, provided the source is an
    object: its keys are distinct. *)
Lemma own_get_assign_present src : forall o k v,
  NoDup (Object_keys src) ->
  own_get src k = Some v -> own_get (obj_assign o src) k = Some v.
Proof.
  unfold obj_assign.
  induction src as [|[k0 v0] src IH]; intros o k v Hnd Hget; simpl in *.
  - discriminate.
  - inversion Hnd as [|? ? Hnotin Hnd']; subst.
    destruct (String.eqb k0 k) eqn:E.
    + apply String.eqb_eq in E. subst k0. injection Hget as <-.
      destruct (own_get src k) eqn:Hsrc.
      * exfalso. apply Hnotin. eapply own_get_In. exact Hsrc.
      * pose proof (own_get_assign_absent src (obj_set o k v0) k Hsrc) as H.
        unfold obj_assign in H. rewrite H. apply own_get_set_same.
    + now apply IH.
Qed.

Lemma own_get_rest o ks k :
  existsb (String.eqb k) ks = false -> own_get (obj_rest o ks) k = own_get o k.
Proof.
  intros Hk. unfold obj_rest.
  induction o as [|[k0 v0] o IH]; simpl; [reflexivity|].
  destruct (String.eqb k0 k) eqn:E.
  - apply String.eqb_eq in E. subst k0. rewrite Hk. simpl.
    now rewrite String.eqb_refl.
  - destruct (negb (existsb (String.eqb k0) ks)); simpl; [rewrite E|]; exact IH.
Qed.

Lemma get_property_rest o ks k :
  existsb (String.eqb k) ks = false ->
  get_property (obj_rest o ks) k = get_property o k.
Proof. intros H. unfold get_property. now rewrite own_get_rest. Qed.

End ObjectFacts.

(** ** The response parser *)

Section ParserFacts.

Context {rt : Runtime}.

Lemma get_property_own (o : JsObject) k v :
  own_get o k = Some v -> get_property o k = v.
Proof. intros H. unfold get_property. now rewrite H. Qed.

Lemma get_property_missing (o : JsObject) k :
  own_get o k = None -> inherited k = false -> get_property o k = VUndefined.
Proof. intros H Hi. unfold get_property. now rewrite H, Hi. Qed.

Lemma Array_join_strings sep (rs : list string) :
  Array_join sep (map VString rs) = Ok (String.concat sep rs).
Proof.
  induction rs as [|r rs IH]; [reflexivity|].
  destruct rs as [|r' rs]; [reflexivity|].
  change (Array_join sep (map VString (r :: r' :: rs)))
    with (x <- Array_join sep (map VString (r' :: rs)) ;; Ok (r ++ sep ++ x)).
  now rewrite IH.
Qed.

Lemma optional_join_reasons (args : JsObject) reasons :
  own_get args "reasons" = option_map strings reasons ->
  optional_join (get_property args "reasons") newline = Ok (rationale_of reasons).
Proof.
  intros H. unfold get_property. rewrite H.
  destruct reasons as [rs|]; simpl.
  - now rewrite Array_join_strings.
  - reflexivity.
Qed.

(** The parser's successful run, in full. *)
Lemma parseResponse_returns resp fc (args cs : JsObject) r c v :
  function_call resp = Some fc ->
  JSON_parse (arguments fc) = Ok (VObject args) ->
  optional_join (get_property args "reasons") newline = Ok r ->
  get_property args "choice" = VString c ->
  get_property cs (trim c) = v ->
  is_undefined v = false ->
  parseResponse resp (VObject cs)
  = Ok {| score := v;
          metadata := [("rationale", r); ("choice", VString (trim c))] |}.
Proof.
  intros Hfc Hparse Hjoin Hchoice Hget Hdef.
  unfold parseResponse. rewrite Hfc. simpl. rewrite Hparse. simpl.
  rewrite Hjoin. simpl. rewrite Hchoice. simpl. rewrite Hget, Hdef.
  reflexivity.
Qed.

(** The throw branch: the trimmed choice is neither an own key of the score
    map nor a member of [Object.prototype]. *)
Lemma parseResponse_unknown resp fc (args cs : JsObject) r c :
  function_call resp = Some fc ->
  JSON_parse (arguments fc) = Ok (VObject args) ->
  optional_join (get_property args "reasons") newline = Ok r ->
  get_property args "choice" = VString c ->
  own_get cs (trim c) = None ->
  inherited (trim c) = false ->
  parseResponse resp (VObject cs)
  = Throw (Error ("Unknown score choice " ++ trim c)).
Proof.
  intros Hfc Hparse Hjoin Hchoice Hown Hinh.
  unfold parseResponse. rewrite Hfc. simpl. rewrite Hparse. simpl.
  rewrite Hjoin. simpl. rewrite Hchoice. simpl.
  now rewrite (get_property_missing _ _ Hown Hinh).
Qed.

(** C1. A reply whose [choice], once trimmed, is a label [L] of the score
    map with score [S] parses to score [S] and [metadata.choice = L].  The
    reply has the shape of the response schema: [choice] is a string and
    [reasons] is an array of strings or missing. *)
Theorem parseResponse_known_choice
    resp fc (args cs : JsObject) (c L : string) (S : float) reasons :
  function_call resp = Some fc ->
  JSON_parse (arguments fc) = Ok (VObject args) ->
  own_get args "reasons" = option_map strings reasons ->
  own_get args "choice" = Some (VString c) ->
  trim c = L ->
  own_get cs L = Some (VNumber S) ->
  exists p,
    parseResponse resp (VObject cs) = Ok p
    /\ score p = VNumber S
    /\ get_property (metadata p) "choice" = VString L.
Proof.
  intros Hfc Hparse Hreasons Hchoice Htrim Hscore. subst L.
  eexists. split.
  - apply (parseResponse_returns resp fc args cs (rationale_of reasons) c (VNumber S));
      auto using optional_join_reasons, get_property_own.
  - split; reflexivity.
Qed.

(** C2, at the failing input.  With the score map [{Yes: 1, No: 0}] and the
    reply [{choice: "toString"}] the lookup [choiceScores[choice]] finds the
    member every object inherits from [Object.prototype]; it is not
    [undefined], so the parser does not throw and returns it as the score. *)
Theorem parseResponse_inherited_choice resp fc :
  function_call resp = Some fc ->
  JSON_parse (arguments fc) = Ok (VObject [("choice", VString "toString")]) ->
  parseResponse resp (VObject [("Yes", VNumber 1%float); ("No", VNumber 0%float)])
  = Ok {| score := VBuiltin "toString";
          metadata := [("rationale", VUndefined); ("choice", VString "toString")] |}.
Proof.
  intros Hfc Hparse.
  apply (parseResponse_returns resp fc
           [("choice", VString "toString")] _ VUndefined "toString");
    auto; reflexivity.
Qed.

(** C7. When the reply's [reasons] is an array of strings, the rationale
    stored in the metadata is its elements joined by newlines; when the
    reply has no [reasons], reading [metadata.rationale] gives [undefined].
    In both cases the parser returns: [choice] is a string whose trimmed
    value the score map defines. *)
Theorem parseResponse_rationale resp fc (args cs : JsObject) (c : string) :
  function_call resp = Some fc ->
  JSON_parse (arguments fc) = Ok (VObject args) ->
  own_get args "choice" = Some (VString c) ->
  is_undefined (get_property cs (trim c)) = false ->
  (forall rs,
      own_get args "reasons" = Some (strings rs) ->
      exists p,
        parseResponse resp (VObject cs) = Ok p
        /\ get_property (metadata p) "rationale"
           = VString (String.concat newline rs))
  /\ (own_get args "reasons" = None ->
      exists p,
        parseResponse resp (VObject cs) = Ok p
        /\ get_property (metadata p) "rationale" = VUndefined).
Proof.
  intros Hfc Hparse Hchoice Hdef.
  apply get_property_own in Hchoice.
  split.
  - intros rs Hrs. eexists. split.
    + apply (parseResponse_returns resp fc args cs (rationale_of (Some rs)) c
               (get_property cs (trim c))); auto.
      now apply optional_join_reasons.
    + reflexivity.
  - intros Hnone. eexists. split.
    + apply (parseResponse_returns resp fc args cs (rationale_of None) c
               (get_property cs (trim c))); auto.
      now apply optional_join_reasons.
    + reflexivity.
Qed.

End ParserFacts.

(** ** The schema builder *)

Lemma buildClassificationFunctions_plain labels :
  buildClassificationFunctions (VBool false) labels
  = VArray
      [ VObject
          [ ("name", VString "select_choice");
            ("description", VString "Call this function to select a choice.");
            ("parameters", VObject
               [ ("properties", VObject
                    [ ("choice", VObject [ ("description", VString "The choice");
                                           ("title", VString "Choice");
                                           ("type", VString "string");
                                           ("enum", strings labels) ]) ]);
                 ("required", strings ["choice"]);
                 ("title", VString "FunctionResponse");
                 ("type", VString "object") ]) ] ].
Proof. reflexivity. Qed.

(** C3. For either mode and any list of labels the builder returns one
    function, named [select_choice], whose [choice] property carries the
    labels as its [enum], in the order given.  Without chain of thought the
    schema has and requires the single field [choice]; with it the schema
    also requires [reasons], an array of strings, placed before [choice]. *)
Theorem buildClassificationFunctions_schema (useCoT : bool) (labels : list string) :
  exists f,
    buildClassificationFunctions (VBool useCoT) labels = VArray [f]
    /\ dot f "name" = VString "select_choice"
    /\ let properties := dot (dot f "parameters") "properties" in
       dot (dot properties "choice") "enum" = strings labels
       /\ keys_of properties = (if useCoT then ["reasons"; "choice"] else ["choice"])
       /\ dot (dot f "parameters") "required"
          = strings (if useCoT then ["reasons"; "choice"] else ["choice"])
       /\ (useCoT = true ->
           dot (dot properties "reasons") "type" = VString "array"
           /\ dot (dot (dot properties "reasons") "items") "type" = VString "string").
Proof.
  destruct useCoT; eexists; (split; [reflexivity|]); cbv zeta; repeat split;
    discriminate.
Qed.

(** ** The invoker *)

Section InvokerFacts.

Context {rt : Runtime} {Store : Type}.
Variable provider : list Event -> JsObject -> JsObject -> ChatCompletion.

Implicit Types (args : JsObject) (w : World Store) (c : ChatCache Store)
         (cache : option (ChatCache Store)).

Lemma unsupported_prefixes m :
  startsWith m "gpt-3.5-turbo" = false ->
  startsWith m "gpt-4" = false ->
  existsb (startsWith m) SUPPORTED_MODELS = false.
Proof. intros H1 H2. simpl. now rewrite H1, H2. Qed.

Lemma completionParams_unsupported args m :
  get_property args "model" = VString m ->
  existsb (startsWith m) SUPPORTED_MODELS = false ->
  completionParams args
  = Throw (Error ("Unsupported model: " ++ m
                  ++ ". Currently only supports OpenAI chat models.")).
Proof.
  intros Hm Hun. unfold completionParams.
  rewrite (get_property_rest args _ "model") by reflexivity.
  rewrite Hm. unfold check_model. rewrite Hun. reflexivity.
Qed.

(** C4. A model name that starts with neither [gpt-3.5-turbo] nor [gpt-4]
    makes the invocation throw the unsupported-model error, and the world is
    the one it started from: no cache lookup, no network call, no store. *)
Theorem OpenAIClassifier_unsupported_model args cache w m :
  get_property args "model" = VString m ->
  startsWith m "gpt-3.5-turbo" = false ->
  startsWith m "gpt-4" = false ->
  OpenAIClassifier provider args cache w
  = (Throw (Error ("Unsupported model: " ++ m
                   ++ ". Currently only supports OpenAI chat models.")), w).
Proof.
  intros Hm H1 H2.
  unfold OpenAIClassifier, bindM, lift.
  now rewrite (completionParams_unsupported args m Hm (unsupported_prefixes m H1 H2)).
Qed.

(** C8. When the completion handed back to the invoker has no choices, the
    invocation throws the empty-response error and returns no score. *)
Theorem OpenAIClassifier_empty_response args cache w params resp w' :
  completionParams args = Ok params ->
  cachedChatCompletion provider params (completionOptions args cache) w = (Ok resp, w') ->
  choices resp = [] ->
  OpenAIClassifier provider args cache w
  = (Throw (Error "Empty response from OpenAI"), w').
Proof.
  intros Hparams Hresp Hempty.
  unfold OpenAIClassifier, bindM, lift.
  now rewrite Hparams, Hresp, Hempty.
Qed.

Lemma OpenAIClassifier_unfold args cache w :
  OpenAIClassifier provider args cache w
  = match completionParams args with
    | Throw e => (Throw e, w)
    | Ok params =>
        match cachedChatCompletion provider params (completionOptions args cache) w with
        | (Ok resp, w') => (score_of args resp, w')
        | (Throw e, w') => (Throw e, w')
        end
    end.
Proof.
  unfold OpenAIClassifier, bindM, lift, score_of.
  destruct (completionParams args) as [params|e]; [|reflexivity].
  destruct (cachedChatCompletion provider params (completionOptions args cache) w)
    as [[resp|e] w']; [|reflexivity].
  destruct (choices resp); reflexivity.
Qed.

Lemma network_calls_app es es' :
  network_calls (es ++ es')%list = network_calls es + network_calls es'.
Proof. unfold network_calls. now rewrite filter_app, List.length_app. Qed.

(** C5. Two invocations in a row with the same arguments and an available
    cache: the second returns what the first returned and makes no network
    call, so the two together make at most one. *)
Theorem OpenAIClassifier_cached_twice args c w r1 w1 r2 w2 :
  available c ->
  OpenAIClassifier provider args (Some c) w = (r1, w1) ->
  OpenAIClassifier provider args (Some c) w1 = (r2, w2) ->
  r2 = r1
  /\ network_calls (trace w2) = network_calls (trace w1)
  /\ network_calls (trace w2) <= network_calls (trace w) + 1.
Proof.
  intros Hav.
  rewrite !OpenAIClassifier_unfold.
  destruct (completionParams args) as [params|e].
  - unfold cachedChatCompletion, completionOptions; simpl.
    destruct (cache_get c (store w) params) as [stored|] eqn:Hget.
    + intros H1. injection H1 as <- <-. simpl. rewrite Hget.
      intros H2. injection H2 as <- <-. simpl.
      rewrite !network_calls_app. cbn. repeat split; lia.
    + intros H1. injection H1 as <- <-. simpl. rewrite Hav.
      intros H2. injection H2 as <- <-. simpl.
      rewrite !network_calls_app. cbn. repeat split; lia.
  - intros H1. injection H1 as <- <-.
    intros H2. injection H2 as <- <-.
    repeat split; lia.
Qed.

End InvokerFacts.

(** ** The classifier builders *)

Section BuilderFacts.

Context {rt : Runtime} {Store : Type}.
Variable provider : list Event -> JsObject -> JsObject -> ChatCompletion.

Implicit Types (t : TemplateArgs) (runtimeArgs args params : JsObject)
         (w : World Store) (cache : option (ChatCache Store)).

Lemma classifier_args_shape t runtimeArgs :
  classifier_args t runtimeArgs
  = obj_set (obj_assign (template_fields t (effective_useCoT t runtimeArgs)) runtimeArgs)
            "useCoT" (effective_useCoT t runtimeArgs).
Proof. reflexivity. Qed.

(** A field other than [useCoT] keeps the template's value unless the
    runtime arguments carry the key, in which case theirs wins. *)
Lemma classifier_args_default t runtimeArgs k :
  k <> "useCoT" ->
  own_get runtimeArgs k = None ->
  get_property (classifier_args t runtimeArgs) k
  = get_property (template_fields t (effective_useCoT t runtimeArgs)) k.
Proof.
  intros Hk Habs. rewrite classifier_args_shape.
  rewrite get_property_set_other by congruence.
  unfold get_property. now rewrite own_get_assign_absent.
Qed.

Lemma classifier_args_override t runtimeArgs k v :
  k <> "useCoT" ->
  NoDup (Object_keys runtimeArgs) ->
  own_get runtimeArgs k = Some v ->
  get_property (classifier_args t runtimeArgs) k = v.
Proof.
  intros Hk Hnd Hget. rewrite classifier_args_shape.
  rewrite get_property_set_other by congruence.
  unfold get_property. now rewrite (own_get_assign_present _ _ _ _ Hnd Hget).
Qed.

(** *** The request a classifier sends *)

Lemma cachedChatCompletion_events params options w :
  exists es,
    trace (snd (cachedChatCompletion provider params options w)) = (trace w ++ es)%list
    /\ es <> []
    /\ Forall (fun e => event_params e = params) es.
Proof.
  unfold cachedChatCompletion.
  destruct (cache options) as [c|].
  - destruct (cache_get c (store w) params); eexists; simpl;
      (split; [reflexivity | split; [discriminate | repeat constructor]]).
  - eexists; simpl. split; [reflexivity | split; [discriminate | repeat constructor]].
Qed.

Lemma OpenAIClassifier_requests (P : JsObject -> Prop) args cache :
  (forall params, completionParams args = Ok params -> P params) ->
  requests_satisfy P (OpenAIClassifier provider args cache).
Proof.
  intros HP w. rewrite OpenAIClassifier_unfold.
  destruct (completionParams args) as [params|e].
  - destruct (cachedChatCompletion_events params (completionOptions args cache) w)
      as (es & Htrace & _ & Hall).
    exists es.
    destruct (cachedChatCompletion provider params (completionOptions args cache) w)
      as [[resp|e] w']; simpl in *;
      (split; [exact Htrace|]);
      (eapply Forall_impl; [|exact Hall]); intros ev ->; now apply HP.
  - exists []. simpl. now rewrite app_nil_r.
Qed.

Lemma OpenAIClassifier_reaches args cache params w :
  completionParams args = Ok params ->
  trace (snd (OpenAIClassifier provider args cache w)) <> trace w.
Proof.
  intros Hparams. rewrite OpenAIClassifier_unfold, Hparams.
  destruct (cachedChatCompletion_events params (completionOptions args cache) w)
    as (es & Htrace & Hne & _).
  destruct (cachedChatCompletion provider params (completionOptions args cache) w)
    as [[resp|e] w']; simpl in *; rewrite Htrace; intros Heq;
    apply Hne; apply (app_inv_head (trace w)); now rewrite app_nil_r.
Qed.

(** The request repeats the [model] and [maxTokens] the invoker was given. *)
Lemma completionParams_fields args params :
  completionParams args = Ok params ->
  get_property params "model" = get_property args "model"
  /\ get_property params "max_tokens" = get_property args "maxTokens".
Proof.
  unfold completionParams.
  rewrite (get_property_rest args _ "model") by reflexivity.
  rewrite (get_property_rest args _ "maxTokens") by reflexivity.
  destruct (check_model (get_property args "model")) as [[]|e]; simpl;
    [|discriminate].
  match goal with
  | |- context [bind ?m _] => destruct m as [messages|e]; simpl; [|discriminate]
  end.
  intros H. injection H as <-. split; reflexivity.
Qed.

Lemma classifier_prompt_truthy t useCoT :
  truthy (VString (classifier_prompt t useCoT)) = true.
Proof.
  unfold classifier_prompt, truthy. now destruct (promptTemplate t).
Qed.

(** When the caller leaves [messages] alone, the model is supported and the
    prompt renders, the invoker gets as far as the request. *)
Lemma template_request t runtimeArgs :
  own_get runtimeArgs "messages" = None ->
  check_model (get_property (classifier_args t runtimeArgs) "model") = Ok tt ->
  renders (classifier_prompt t (effective_useCoT t runtimeArgs)) ->
  exists params, completionParams (classifier_args t runtimeArgs) = Ok params.
Proof.
  intros Hmsg Hmodel Hrenders.
  unfold completionParams. cbv zeta.
  rewrite (get_property_rest _ _ "messages") by reflexivity.
  rewrite (get_property_rest _ _ "model") by reflexivity.
  rewrite Hmodel.
  rewrite (classifier_args_default t runtimeArgs "messages") by (congruence || exact Hmsg).
  cbn [bind template_fields get_property own_get String.eqb Ascii.eqb Bool.eqb
       map_result render_message get_member].
  rewrite classifier_prompt_truthy.
  match goal with
  | |- context [mustache_render _ ?view] => destruct (Hrenders view) as [s Hs]
  end.
  rewrite Hs. cbn [bind]. eexists. reflexivity.
Qed.

Lemma template_default_model t runtimeArgs cache :
  t_model t = VUndefined ->
  own_get runtimeArgs "model" = None ->
  get_property (classifier_args t runtimeArgs) "model" = VString "gpt-3.5-turbo"
  /\ requests_satisfy (has_model "gpt-3.5-turbo")
       (LLMClassifierFromTemplate provider t runtimeArgs cache).
Proof.
  intros Ht Hrt.
  assert (Hargs : get_property (classifier_args t runtimeArgs) "model"
                  = VString "gpt-3.5-turbo").
  { rewrite classifier_args_default by (congruence || exact Hrt).
    cbn. now rewrite Ht. }
  split; [exact Hargs|].
  apply OpenAIClassifier_requests. intros params Hparams.
  unfold has_model.
  destruct (completionParams_fields _ _ Hparams) as [-> _]. exact Hargs.
Qed.

End BuilderFacts.

(** * The theorems on the scenario *)

(** The reply [{choice: " Yes "}] scores 1 under the label [Yes]. *)
Lemma parseResponse_known_choice_witness :
  exists p,
    parseResponse (rt := host) (reply plain_reply) (VObject yes_no) = Ok p
    /\ score p = VNumber 1%float
    /\ get_property (metadata p) "choice" = VString "Yes".
Proof.
  apply (parseResponse_known_choice (rt := host) (reply plain_reply)
           {| arguments := plain_reply; fname := "select_choice" |}
           [("choice", VString " Yes ")] yes_no " Yes " "Yes" 1%float None);
    reflexivity.
Defined.

(** The reply [{choice: "toString"}] is given a score. *)
Lemma parseResponse_inherited_choice_witness :
  parseResponse (rt := host) (reply inherited_reply) (VObject yes_no)
  = Ok {| score := VBuiltin "toString";
          metadata := [("rationale", VUndefined); ("choice", VString "toString")] |}.
Proof.
  apply (parseResponse_inherited_choice (rt := host) (reply inherited_reply)
           {| arguments := inherited_reply; fname := "select_choice" |});
    reflexivity.
Defined.

(** Two reasons become a two-line rationale. *)
Lemma parseResponse_rationale_witness :
  exists p,
    parseResponse (rt := host) (reply cot_reply) (VObject yes_no) = Ok p
    /\ get_property (metadata p) "rationale"
       = VString ("it's a pun" ++ newline ++ "puns are funny").
Proof.
  apply (proj1 (parseResponse_rationale (rt := host) (reply cot_reply)
                  {| arguments := cot_reply; fname := "select_choice" |}
                  [("reasons", strings ["it's a pun"; "puns are funny"]);
                   ("choice", VString "Yes")] yes_no "Yes"
                  eq_refl eq_refl eq_refl eq_refl)
               ["it's a pun"; "puns are funny"]).
  reflexivity.
Defined.

(** Asking for [claude-2] throws and leaves the world untouched. *)
Lemma OpenAIClassifier_unsupported_model_witness :
  OpenAIClassifier (rt := host) says_yes
    (classifier_args humor [("output", VString "a pun"); ("model", VString "claude-2")])
    (Some one_slot) fresh
  = (Throw (Error "Unsupported model: claude-2. Currently only supports OpenAI chat models."),
     fresh).
Proof.
  apply (OpenAIClassifier_unsupported_model (rt := host) says_yes
           (classifier_args humor
              [("output", VString "a pun"); ("model", VString "claude-2")])
           (Some one_slot) fresh "claude-2");
    reflexivity.
Defined.

(** A provider that returns no choices. *)
Lemma OpenAIClassifier_empty_response_witness :
  fst (OpenAIClassifier (rt := host) says_nothing (classifier_args humor a_pun) None fresh)
  = Throw (Error "Empty response from OpenAI").
Proof.
  erewrite (OpenAIClassifier_empty_response (rt := host) says_nothing
              (classifier_args humor a_pun) None fresh).
  - reflexivity.
  - vm_compute. reflexivity.
  - vm_compute. reflexivity.
  - reflexivity.
Defined.

(** The Humor classifier run twice over the one-slot cache. *)
Lemma OpenAIClassifier_cached_twice_witness :
  let run := OpenAIClassifier (rt := host) says_yes
               (classifier_args humor a_pun) (Some one_slot) in
  fst (run (snd (run fresh))) = fst (run fresh)
  /\ network_calls (trace (snd (run (snd (run fresh)))))
     = network_calls (trace (snd (run fresh)))
  /\ network_calls (trace (snd (run (snd (run fresh)))))
     <= network_calls (trace fresh) + 1.
Proof.
  intros run.
  apply (OpenAIClassifier_cached_twice (rt := host) says_yes
           (classifier_args humor a_pun) one_slot fresh
           (fst (run fresh)) (snd (run fresh))
           (fst (run (snd (run fresh)))) (snd (run (snd (run fresh))))).
  - intros slot params response. reflexivity.
  - apply surjective_pairing.
  - apply surjective_pairing.
Defined.

(** * Further properties of the code *)

(** ** The parser's failures and what a returned score is *)

Section MoreParserFacts.

Context {rt : Runtime}.

Lemma optional_join_value v sep r :
  optional_join v sep = Ok r -> r = VUndefined \/ exists s, r = VString s.
Proof.
  destruct v; simpl; try discriminate.
  - intros H. injection H as <-. now left.
  - intros H. injection H as <-. now left.
  - destruct (Array_join sep items) as [s|e]; simpl; [|discriminate].
    intros H. injection H as <-. right. now exists s.
Qed.

Lemma call_trim_value v choice :
  call_trim v = Ok choice -> exists c, v = VString c /\ choice = trim c.
Proof.
  destruct v; simpl; try discriminate.
  intros H. injection H as <-. now exists s.
Qed.

(** An unknown label is refused by name.  The trimmed choice is neither a
    key of the score map nor a member of [Object.prototype]: the parser
    throws [Unknown score choice] followed by the trimmed choice, whatever
    the reasons were. *)
Theorem parseResponse_rejects_unknown resp fc (args cs : JsObject) c reasons :
  function_call resp = Some fc ->
  JSON_parse (arguments fc) = Ok (VObject args) ->
  own_get args "reasons" = option_map strings reasons ->
  own_get args "choice" = Some (VString c) ->
  own_get cs (trim c) = None ->
  inherited (trim c) = false ->
  parseResponse resp (VObject cs)
  = Throw (Error ("Unknown score choice " ++ trim c)).
Proof.
  intros Hfc Hparse Hreasons Hchoice Hown Hinh.
  apply (parseResponse_unknown resp fc args cs (rationale_of reasons) c);
    auto using optional_join_reasons, get_property_own.
Qed.

Lemma parseResponse_inversion resp (cs : JsObject) p :
  parseResponse resp (VObject cs) = Ok p ->
  exists c rationale,
    metadata p = [("rationale", rationale); ("choice", VString (trim c))]
    /\ score p = get_property cs (trim c)
    /\ is_undefined (score p) = false
    /\ (rationale = VUndefined \/ exists s, rationale = VString s).
Proof.
  unfold parseResponse.
  destruct (function_call resp) as [fc|]; simpl; [|discriminate].
  destruct (JSON_parse (arguments fc)) as [args|]; simpl; [|discriminate].
  destruct (get_member args "reasons") as [reasons|]; simpl; [|discriminate].
  destruct (optional_join reasons newline) as [rationale|] eqn:Hjoin; simpl;
    [|discriminate].
  destruct (get_member args "choice") as [choice_arg|]; simpl; [|discriminate].
  destruct (call_trim choice_arg) as [choice|] eqn:Htrim; simpl; [|discriminate].
  destruct (is_undefined (get_property cs choice)) eqn:Hdef; simpl; [discriminate|].
  intros H. injection H as <-.
  destruct (call_trim_value _ _ Htrim) as (c & _ & ->).
  exists c, rationale. simpl. repeat split; auto.
  eapply optional_join_value. exact Hjoin.
Qed.

(** Whatever the parser returns was looked up: the metadata has the two
    keys [rationale] and [choice], the choice is a trimmed string, the score
    is what the score map yields for that very string and is not
    [undefined], and the rationale is a string or [undefined]. *)
Theorem parseResponse_sound resp (cs : JsObject) p :
  parseResponse resp (VObject cs) = Ok p ->
  exists c rationale,
    metadata p = [("rationale", rationale); ("choice", VString (trim c))]
    /\ score p = get_property cs (trim c)
    /\ is_undefined (score p) = false
    /\ (rationale = VUndefined \/ exists s, rationale = VString s).
Proof. apply parseResponse_inversion. Qed.

(** A reply that is no function call, or whose arguments are not JSON, or
    are the JSON [null], never yields a score: the first and the last are a
    TypeError, the second is the error [JSON.parse] threw.  The message's
    text content is not consulted. *)
Theorem parseResponse_malformed resp choiceScores :
  (function_call resp = None -> parseResponse resp choiceScores = Throw TypeError)
  /\ (forall fc e,
        function_call resp = Some fc ->
        JSON_parse (arguments fc) = Throw e ->
        parseResponse resp choiceScores = Throw e)
  /\ (forall fc,
        function_call resp = Some fc ->
        JSON_parse (arguments fc) = Ok VNull ->
        parseResponse resp choiceScores = Throw TypeError).
Proof.
  unfold parseResponse. repeat split.
  - intros ->. reflexivity.
  - intros fc e Hfc Hparse. rewrite Hfc. simpl. now rewrite Hparse.
  - intros fc Hfc Hparse. rewrite Hfc. simpl. now rewrite Hparse.
Qed.

(** A [reasons] that is present but not an array (a single string, say)
    fails the parse with a TypeError at the [join], before the choice is
    looked at: a valid choice does not save the reply. *)
Theorem parseResponse_reasons_not_array resp fc (args : JsObject) v choiceScores :
  function_call resp = Some fc ->
  JSON_parse (arguments fc) = Ok (VObject args) ->
  own_get args "reasons" = Some v ->
  is_nullish v = false ->
  is_array v = false ->
  parseResponse resp choiceScores = Throw TypeError.
Proof.
  intros Hfc Hparse Hreasons Hnull Harr.
  unfold parseResponse. rewrite Hfc. simpl. rewrite Hparse. simpl.
  rewrite (get_property_own _ _ _ Hreasons).
  destruct v; simpl in *; try discriminate; reflexivity.
Qed.

(** A [choice] that is missing or not a string fails the parse with a
    TypeError at the [trim]; the unknown-choice error is not reached. *)
Theorem parseResponse_choice_not_string
    resp fc (args : JsObject) reasons choiceScores :
  function_call resp = Some fc ->
  JSON_parse (arguments fc) = Ok (VObject args) ->
  own_get args "reasons" = option_map strings reasons ->
  is_string (get_property args "choice") = false ->
  parseResponse resp choiceScores = Throw TypeError.
Proof.
  intros Hfc Hparse Hreasons Hstr.
  unfold parseResponse. rewrite Hfc. simpl. rewrite Hparse. simpl.
  rewrite (optional_join_reasons args reasons Hreasons). simpl.
  destruct (get_property args "choice"); simpl in *; try discriminate; reflexivity.
Qed.

End MoreParserFacts.

(** ** More on objects *)

Section MoreObjectFacts.

Implicit Types (o src : JsObject) (k : string) (v : JsValue).

Lemma existsb_eqb_false k (ks : list string) :
  ~ In k ks -> existsb (String.eqb k) ks = false.
Proof.
  induction ks as [|k0 ks IH]; simpl; [reflexivity|].
  intros Hnot. destruct (String.eqb k k0) eqn:E; simpl.
  - apply String.eqb_eq in E. exfalso. apply Hnot. now left.
  - apply IH. intros Hin. apply Hnot. now right.
Qed.

Lemma existsb_eqb_true k (ks : list string) :
  In k ks -> existsb (String.eqb k) ks = true.
Proof.
  intros Hin. apply existsb_exists. exists k. split; [exact Hin|].
  apply String.eqb_refl.
Qed.

(** A key taken out by a rest pattern is gone. *)
Lemma own_get_rest_removed o ks k :
  existsb (String.eqb k) ks = true -> own_get (obj_rest o ks) k = None.
Proof.
  intros Hk. unfold obj_rest.
  induction o as [|[k0 v0] o IH]; simpl; [reflexivity|].
  destruct (existsb (String.eqb k0) ks) eqn:E0; simpl; [exact IH|].
  destruct (String.eqb k0 k) eqn:E; [|exact IH].
  apply String.eqb_eq in E. subst k0. congruence.
Qed.

Lemma keys_rest_In o ks k : In k (Object_keys (obj_rest o ks)) -> In k (Object_keys o).
Proof.
  unfold obj_rest, Object_keys.
  induction o as [|[k0 v0] o IH]; simpl; [tauto|].
  destruct (negb (existsb (String.eqb k0) ks)); simpl; intuition.
Qed.

Lemma keys_rest_NoDup o ks :
  NoDup (Object_keys o) -> NoDup (Object_keys (obj_rest o ks)).
Proof.
  induction o as [|[k0 v0] o IH]; simpl; intros Hnd; [constructor|].
  inversion Hnd as [|? ? Hnotin Hnd']; subst.
  unfold obj_rest in *. simpl.
  destruct (negb (existsb (String.eqb k0) ks)); simpl; [|now apply IH].
  constructor; [|now apply IH].
  intros Hin. apply Hnotin. now apply (keys_rest_In o ks).
Qed.

(** Spreading an object into a target: its keys win, the others stay. *)
Lemma own_get_assign o src k :
  NoDup (Object_keys src) ->
  own_get (obj_assign o src) k
  = match own_get src k with Some v => Some v | None => own_get o k end.
Proof.
  intros Hnd. destruct (own_get src k) as [v|] eqn:E.
  - now apply own_get_assign_present.
  - now apply own_get_assign_absent.
Qed.

Lemma keys_set_In o k v k' :
  In k' (Object_keys (obj_set o k v)) -> k' = k \/ In k' (Object_keys o).
Proof.
  induction o as [|[k0 v0] o IH]; simpl.
  - intuition.
  - destruct (String.eqb k0 k) eqn:E; simpl; intuition.
Qed.

(** Writing properties never duplicates a key. *)
Lemma keys_set_NoDup o k v :
  NoDup (Object_keys o) -> NoDup (Object_keys (obj_set o k v)).
Proof.
  induction o as [|[k0 v0] o IH]; simpl; intros Hnd.
  - constructor; [tauto | constructor].
  - inversion Hnd as [|? ? Hnotin Hnd']; subst.
    destruct (String.eqb k0 k) eqn:E; simpl.
    + now constructor.
    + constructor; [|now apply IH].
      intros Hin. apply keys_set_In in Hin. destruct Hin as [->|Hin]; [|tauto].
      now rewrite String.eqb_refl in E.
Qed.

Lemma keys_assign_NoDup src : forall o,
  NoDup (Object_keys o) -> NoDup (Object_keys (obj_assign o src)).
Proof.
  unfold obj_assign.
  induction src as [|[k0 v0] src IH]; simpl; intros o Hnd; [exact Hnd|].
  apply IH. now apply keys_set_NoDup.
Qed.

Lemma object_literal_NoDup es : NoDup (Object_keys (object_literal es)).
Proof.
  unfold object_literal.
  assert (H : forall o, NoDup (Object_keys o) ->
                        NoDup (Object_keys (fold_left add_entry es o))).
  { induction es as [|e es IH]; simpl; intros o Hnd; [exact Hnd|].
    apply IH. destruct e; simpl.
    - now apply keys_set_NoDup.
    - now apply keys_assign_NoDup. }
  apply H. constructor.
Qed.

End MoreObjectFacts.

(** ** The request the invoker builds *)

Section MoreInvokerFacts.

Context {rt : Runtime}.

Implicit Types (args params : JsObject) (k : string).

Lemma startsWith_append p suffix : startsWith (p ++ suffix) p = true.
Proof.
  unfold startsWith.
  induction p as [|a p IH]; simpl.
  - now destruct suffix.
  - destruct (ascii_dec a a) as [_|Hne]; [exact IH | now elim Hne].
Qed.

Lemma check_model_ok model :
  check_model model = Ok tt
  <-> exists s, model = VString s
               /\ (startsWith s "gpt-3.5-turbo" = true \/ startsWith s "gpt-4" = true).
Proof.
  split.
  - destruct model; simpl; try discriminate.
    destruct (startsWith s "gpt-3.5-turbo") eqn:E1;
      destruct (startsWith s "gpt-4") eqn:E2; simpl; try discriminate;
      intros _; exists s; auto.
  - intros (s & -> & [H|H]); simpl; rewrite H; simpl; [reflexivity|].
    now destruct (startsWith s "gpt-3.5-turbo").
Qed.

(** The model check is a prefix test on strings: a model passes exactly when
    it is a string that starts with [gpt-3.5-turbo] or [gpt-4], so every
    name that extends a supported one (a dated or sized variant) passes, and
    a model that is not a string is a TypeError rather than unsupported. *)
Theorem check_model_prefixes :
  (forall model,
      check_model model = Ok tt
      <-> exists s, model = VString s
                   /\ (startsWith s "gpt-3.5-turbo" = true
                       \/ startsWith s "gpt-4" = true))
  /\ (forall p suffix,
        In p SUPPORTED_MODELS -> check_model (VString (p ++ suffix)) = Ok tt)
  /\ (forall model, is_string model = false -> check_model model = Throw TypeError).
Proof.
  split; [exact check_model_ok|]. split.
  - intros p suffix Hin. apply check_model_ok. exists (p ++ suffix).
    split; [reflexivity|].
    simpl in Hin. destruct Hin as [<-|[<-|[]]].
    + left. apply startsWith_append.
    + right. apply startsWith_append.
  - intros model Hstr. destruct model; simpl in *; try discriminate; reflexivity.
Qed.

(** [completionParams] with its bindings named. *)
Lemma completionParams_unfold args :
  completionParams args
  = (_ <- check_model (get_property args "model") ;;
     messages <- match get_property args "messages" with
                 | VArray ms => map_result (render_message (render_view args)) ms
                 | _ => Throw TypeError
                 end ;;
     Ok [ ("model", get_property args "model");
          ("messages", VArray messages);
          ("functions", get_property args "classificationFunctions");
          ("function_call", VObject [("name", VString "select_choice")]);
          ("temperature",
           or_else (get_property args "temperature") (VNumber 0%float));
          ("max_tokens", get_property args "maxTokens") ]).
Proof.
  unfold completionParams. cbv zeta.
  rewrite !(get_property_rest args destructured) by reflexivity.
  reflexivity.
Qed.

(** Every request has the same six fields in the same order, names a model
    that passed the check, carries the functions it was given and forces the
    call of [select_choice]. *)
Theorem completionParams_shape args params :
  completionParams args = Ok params ->
  Object_keys params
  = ["model"; "messages"; "functions"; "function_call"; "temperature"; "max_tokens"]
  /\ get_property params "function_call" = VObject [("name", VString "select_choice")]
  /\ get_property params "functions" = get_property args "classificationFunctions"
  /\ check_model (get_property params "model") = Ok tt.
Proof.
  rewrite completionParams_unfold.
  destruct (check_model (get_property args "model")) as [[]|e] eqn:Hmodel; simpl;
    [|discriminate].
  match goal with
  | |- context [bind ?m _] => destruct m as [messages|e]; simpl; [|discriminate]
  end.
  intros H. injection H as <-. repeat split. exact Hmodel.
Qed.

Lemma completionParams_temperature_eq args params :
  completionParams args = Ok params ->
  get_property params "temperature"
  = (if truthy (get_property args "temperature")
     then get_property args "temperature"
     else VNumber 0%float).
Proof.
  rewrite completionParams_unfold.
  destruct (check_model (get_property args "model")) as [[]|e]; simpl; [|discriminate].
  match goal with
  | |- context [bind ?m _] => destruct m as [messages|e]; simpl; [|discriminate]
  end.
  intros H. injection H as <-. reflexivity.
Qed.

(** The sampling temperature of a request is the caller's when that is a
    truthy value and [0] otherwise: a missing, [undefined], [null], zero or
    NaN temperature all send [0]. *)
Theorem completionParams_temperature args params :
  completionParams args = Ok params ->
  get_property params "temperature"
  = (if truthy (get_property args "temperature")
     then get_property args "temperature"
     else VNumber 0%float).
Proof. apply completionParams_temperature_eq. Qed.

End MoreInvokerFacts.

(** ** Messages and the template view *)

Section ViewFacts.

Context {rt : Runtime}.

Implicit Types (args params : JsObject) (k : string) (m : JsValue).

Lemma map_result_Forall2 {A B} (f : A -> Result B) xs : forall ys,
  map_result f xs = Ok ys -> Forall2 (fun x y => f x = Ok y) xs ys.
Proof.
  induction xs as [|x xs IH]; simpl; intros ys H.
  - injection H as <-. constructor.
  - destruct (f x) as [y|e] eqn:Hx; simpl in H; [|discriminate].
    destruct (map_result f xs) as [ys'|e]; simpl in H; [|discriminate].
    injection H as <-. constructor; [exact Hx | now apply IH].
Qed.

Lemma map_result_ext {A B} (f g : A -> Result B) xs :
  (forall x, f x = g x) -> map_result f xs = map_result g xs.
Proof.
  intros H. induction xs as [|x xs IH]; simpl; [reflexivity|].
  now rewrite H, IH.
Qed.

Lemma render_message_rendered view m m' :
  NoDup (Object_keys (own_props m)) ->
  render_message view m = Ok m' ->
  rendered_from m m'
  /\ (forall c, get_member m "content" = Ok c -> truthy c = false ->
                dot m' "content" = VString "").
Proof.
  intros Hnd. unfold render_message.
  destruct (get_member m "content") as [c|e]; simpl; [|discriminate].
  destruct (if truthy c then _ else _) as [text|e] eqn:Htext; simpl; [|discriminate].
  intros H. injection H as <-.
  change (object_literal [Spread m; Field "content" (VString text)])
    with (obj_set (obj_assign [] (own_props m)) "content" (VString text)).
  split.
  - eexists. exists text. split; [reflexivity|]. split.
    + apply own_get_set_same.
    + intros k Hk. rewrite own_get_set_other by congruence.
      rewrite own_get_assign by exact Hnd.
      now destruct (own_get (own_props m) k).
  - intros c' Hc' Hfalsy. injection Hc' as <-. rewrite Hfalsy in Htext.
    injection Htext as <-. simpl. apply get_property_set_same.
Qed.

(** Rendering keeps the conversation: the request has as many messages as
    the invoker was given, in the same order; each is the original with its
    [content] replaced by a string and every other field (the role, say)
    untouched; a message whose content is empty or missing is sent with the
    empty string. *)
Theorem completionParams_messages args params ms :
  get_property args "messages" = VArray ms ->
  Forall (fun m => NoDup (Object_keys (own_props m))) ms ->
  completionParams args = Ok params ->
  exists ms',
    get_property params "messages" = VArray ms'
    /\ Forall2 (fun m m' =>
                  rendered_from m m'
                  /\ (forall c, get_member m "content" = Ok c -> truthy c = false ->
                                dot m' "content" = VString "")) ms ms'.
Proof.
  intros Hms Hnd. rewrite completionParams_unfold, Hms.
  destruct (check_model (get_property args "model")) as [[]|e]; simpl; [|discriminate].
  destruct (map_result (render_message (render_view args)) ms) as [ms'|e] eqn:Hmap;
    simpl; [|discriminate].
  intros H. injection H as <-. exists ms'. split; [reflexivity|].
  apply map_result_Forall2 in Hmap.
  clear Hms. induction Hmap as [|m m' ms ms' Hm Hrest IH]; [constructor|].
  inversion Hnd as [|? ? Hm_nd Hnd']; subst.
  constructor; [|now apply IH].
  now apply (render_message_rendered (render_view args)).
Qed.

Lemma In_destructured k :
  In k destructured -> k = "output" \/ k = "expected" \/ In k withheld.
Proof. unfold destructured, withheld, auth_keys. simpl. intuition. Qed.

Lemma own_get_view_withheld args k :
  In k withheld -> own_get (render_view args) k = None.
Proof.
  intros Hin. unfold render_view.
  change (own_get
            (obj_assign [("output", get_property args "output");
                         ("expected", get_property args "expected")]
               (obj_rest (obj_rest args destructured)
                  [ "messages"; "model"; "choiceScores"; "classificationFunctions";
                    "maxTokens"; "temperature"; "cache" ])) k = None).
  unfold withheld, auth_keys in Hin. simpl in Hin.
  repeat (destruct Hin as [<-|Hin];
          [ rewrite own_get_assign_absent;
            [ reflexivity
            | first [ now apply own_get_rest_removed
                    | rewrite own_get_rest by reflexivity;
                      now apply own_get_rest_removed ] ]
          | ]).
  contradiction.
Qed.

Lemma own_get_view_passes args k :
  NoDup (Object_keys args) ->
  ~ In k withheld ->
  get_property (render_view args) k = get_property args k.
Proof.
  intros Hnd Hk. unfold render_view.
  change (get_property
            (obj_assign [("output", get_property args "output");
                         ("expected", get_property args "expected")]
               (obj_rest (obj_rest args destructured)
                  [ "messages"; "model"; "choiceScores"; "classificationFunctions";
                    "maxTokens"; "temperature"; "cache" ])) k
          = get_property args k).
  set (rest := obj_rest (obj_rest args destructured) _).
  assert (Hrest_nd : NoDup (Object_keys rest))
    by (unfold rest; now apply keys_rest_NoDup, keys_rest_NoDup).
  unfold get_property at 1. rewrite own_get_assign by exact Hrest_nd.
  destruct (String.eqb k "output") eqn:Eo;
    [apply String.eqb_eq in Eo; subst k|];
    [|destruct (String.eqb k "expected") eqn:Ee;
      [apply String.eqb_eq in Ee; subst k|]].
  - unfold rest. rewrite own_get_rest by reflexivity.
    now rewrite own_get_rest_removed by reflexivity.
  - unfold rest. rewrite own_get_rest by reflexivity.
    now rewrite own_get_rest_removed by reflexivity.
  - apply String.eqb_neq in Eo, Ee.
    assert (H1 : existsb (String.eqb k) destructured = false).
    { apply existsb_eqb_false. intros Hin.
      apply In_destructured in Hin. intuition. }
    assert (H2 : existsb (String.eqb k)
                   [ "messages"; "model"; "choiceScores"; "classificationFunctions";
                     "maxTokens"; "temperature"; "cache" ] = false).
    { apply existsb_eqb_false. intros Hin. apply Hk.
      unfold withheld. right. apply in_or_app. now right. }
    unfold rest. rewrite !own_get_rest by assumption.
    unfold get_property.
    destruct (own_get args k); [reflexivity|].
    apply String.eqb_neq in Eo, Ee.
    rewrite String.eqb_sym in Eo. rewrite String.eqb_sym in Ee.
    cbn [own_get]. now rewrite Eo, Ee.
Qed.

Lemma render_message_ext f g view m :
  (forall template, f template view = g template view) ->
  render_message (rt := with_mustache rt f) view m
  = render_message (rt := with_mustache rt g) view m.
Proof.
  intros H. unfold render_message.
  change (get_member (rt := with_mustache rt f) m "content")
    with (get_member (rt := with_mustache rt g) m "content").
  destruct (get_member (rt := with_mustache rt g) m "content") as [c|e]; simpl;
    [|reflexivity].
  destruct (truthy c); [|reflexivity].
  destruct c; try reflexivity. now rewrite H.
Qed.

(** The template engine sees one view per invocation and nothing else: the
    request depends on the engine only through what it renders under
    [render_view args].  That view has no property for the scorer's name,
    the API key and the other credentials, or the request settings
    ([messages], [model], [choiceScores], [classificationFunctions],
    [maxTokens], [temperature], [cache]); every other argument, [output] and
    [expected] included, is in it with the caller's value. *)
Theorem render_view_isolation args :
  (forall f g,
      (forall template, f template (render_view args) = g template (render_view args)) ->
      completionParams (rt := with_mustache rt f) args
      = completionParams (rt := with_mustache rt g) args)
  /\ (forall k, In k withheld -> own_get (render_view args) k = None)
  /\ (forall k, NoDup (Object_keys args) -> ~ In k withheld ->
                get_property (render_view args) k = get_property args k).
Proof.
  split; [|split].
  - intros f g H.
    rewrite (completionParams_unfold (rt := with_mustache rt f)).
    rewrite (completionParams_unfold (rt := with_mustache rt g)).
    destruct (check_model (get_property args "model")) as [[]|e]; simpl; [|reflexivity].
    destruct (get_property args "messages"); try reflexivity.
    rewrite (map_result_ext _ (render_message (rt := with_mustache rt g) (render_view args)));
      [reflexivity|].
    intros m. now apply render_message_ext.
  - intros k. apply own_get_view_withheld.
  - intros k Hnd Hk. now apply own_get_view_passes.
Qed.

End ViewFacts.

(** ** Classifiers built from a template *)

Section MoreBuilderFacts.

Context {rt : Runtime} {Store : Type}.
Variable provider : list Event -> JsObject -> JsObject -> ChatCompletion.

Implicit Types (t : TemplateArgs) (runtimeArgs args params : JsObject)
         (w : World Store) (cache : option (ChatCache Store)).

Lemma classifier_args_NoDup t runtimeArgs :
  NoDup (Object_keys (classifier_args t runtimeArgs)).
Proof. unfold classifier_args. cbv zeta. apply object_literal_NoDup. Qed.

Lemma classifier_args_useCoT t runtimeArgs :
  get_property (classifier_args t runtimeArgs) "useCoT" = effective_useCoT t runtimeArgs.
Proof. rewrite classifier_args_shape. apply get_property_set_same. Qed.

(** The prompt and the schema never disagree on the mode.  Whatever value
    the effective flag is (a boolean or not), the suffix that asks for
    step-by-step reasoning goes with the schema that requires [reasons], and
    the plain suffix with the schema that requires [choice] alone; the
    labels offered are the keys of the score map in their order. *)
Theorem prompt_matches_schema t runtimeArgs :
  own_get runtimeArgs "messages" = None ->
  own_get runtimeArgs "classificationFunctions" = None ->
  let args := classifier_args t runtimeArgs in
  let cot := truthy (effective_useCoT t runtimeArgs) in
  let parameters :=
    dot (first_function (get_property args "classificationFunctions")) "parameters" in
  get_property args "messages"
  = VArray [ VObject [ ("role", VString "user");
                       ("content",
                        VString (promptTemplate t ++ newline
                                 ++ (if cot then COT_SUFFIX else NO_COT_SUFFIX))) ] ]
  /\ dot parameters "required"
     = strings (if cot then ["reasons"; "choice"] else ["choice"])
  /\ dot (dot (dot parameters "properties") "choice") "enum"
     = strings (Object_keys (choiceScores t)).
Proof.
  intros Hmsg Hfun. cbv zeta.
  rewrite !classifier_args_default by (congruence || assumption).
  split; [reflexivity|].
  cbn [template_fields get_property own_get String.eqb Ascii.eqb Bool.eqb].
  unfold buildClassificationFunctions.
  destruct (truthy (effective_useCoT t runtimeArgs)); split; reflexivity.
Qed.

(** The model of a request: the caller's when the runtime arguments name
    one, else the template's.  (With neither it is the default.) *)
Theorem model_precedence t runtimeArgs cache :
  NoDup (Object_keys runtimeArgs) ->
  (forall m,
      own_get runtimeArgs "model" = Some (VString m) ->
      requests_satisfy (has_model m)
        (LLMClassifierFromTemplate provider t runtimeArgs cache))
  /\ (forall m,
        own_get runtimeArgs "model" = None ->
        t_model t = VString m ->
        requests_satisfy (has_model m)
          (LLMClassifierFromTemplate provider t runtimeArgs cache)).
Proof.
  intros Hnd. split; intros m.
  - intros Hrt. apply OpenAIClassifier_requests. intros params Hparams.
    unfold has_model.
    destruct (completionParams_fields _ _ Hparams) as [-> _].
    now apply classifier_args_override; [congruence | |].
  - intros Hrt Ht. apply OpenAIClassifier_requests. intros params Hparams.
    unfold has_model.
    destruct (completionParams_fields _ _ Hparams) as [-> _].
    rewrite classifier_args_default by (congruence || exact Hrt).
    cbn. now rewrite Ht.
Qed.

(** A score that a template classifier returns bears the template's name,
    and its value is the entry of the template's own score map under the
    choice reported in the metadata (never [undefined]), as long as the
    caller passes no [name] or [choiceScores] of their own. *)
Theorem template_score t runtimeArgs cache w s w' :
  own_get runtimeArgs "name" = None ->
  own_get runtimeArgs "choiceScores" = None ->
  LLMClassifierFromTemplate provider t runtimeArgs cache w = (Ok s, w') ->
  name s = VString (t_name t)
  /\ exists c rationale,
       metadata (result s) = [("rationale", rationale); ("choice", VString (trim c))]
       /\ score (result s) = get_property (choiceScores t) (trim c)
       /\ is_undefined (score (result s)) = false.
Proof.
  intros Hname Hscores. unfold LLMClassifierFromTemplate.
  rewrite OpenAIClassifier_unfold.
  destruct (completionParams (classifier_args t runtimeArgs)) as [params|e];
    [|discriminate].
  destruct (cachedChatCompletion provider params _ w) as [[resp|e] w1];
    [|discriminate].
  intros H. injection H as Hs _. revert Hs. unfold score_of.
  destruct (choices resp) as [|first rest]; [discriminate|].
  rewrite get_property_rest by reflexivity.
  rewrite !classifier_args_default by (congruence || assumption).
  cbn [template_fields get_property own_get String.eqb Ascii.eqb Bool.eqb].
  destruct (parseResponse (message first) (VObject (choiceScores t)))
    as [p|e] eqn:Hparse; simpl; [|discriminate].
  intros H. injection H as <-. simpl. split; [reflexivity|].
  destruct (parseResponse_inversion _ _ _ Hparse) as (c & rationale & Hm & Hsc & Hdef & _).
  exists c, rationale. auto.
Qed.

(** A prompt the template engine rejects fails the invocation with the
    engine's error, and nothing has happened by then: no cache lookup, no
    network call, no store. *)
Theorem template_render_failure t runtimeArgs cache w e :
  own_get runtimeArgs "messages" = None ->
  check_model (get_property (classifier_args t runtimeArgs) "model") = Ok tt ->
  mustache_render (classifier_prompt t (effective_useCoT t runtimeArgs))
    (render_view (classifier_args t runtimeArgs)) = Throw e ->
  LLMClassifierFromTemplate provider t runtimeArgs cache w = (Throw e, w).
Proof.
  intros Hmsg Hmodel Hrender. unfold LLMClassifierFromTemplate.
  rewrite OpenAIClassifier_unfold, completionParams_unfold, Hmodel.
  rewrite (classifier_args_default t runtimeArgs "messages")
    by (congruence || exact Hmsg).
  cbn [bind template_fields get_property own_get String.eqb Ascii.eqb Bool.eqb
       map_result render_message get_member].
  rewrite classifier_prompt_truthy, Hrender. reflexivity.
Qed.

(** What a template can interpolate: [useCoT] is the effective flag,
    [__choices] the labels of the score map unless the caller passes
    [__choices] of their own, and every runtime argument that is not
    withheld (such as [output]) has the caller's value. *)
Theorem template_view t runtimeArgs :
  let view := render_view (classifier_args t runtimeArgs) in
  get_property view "useCoT" = effective_useCoT t runtimeArgs
  /\ (own_get runtimeArgs "__choices" = None ->
      get_property view "__choices" = strings (Object_keys (choiceScores t)))
  /\ (forall k v,
        NoDup (Object_keys runtimeArgs) ->
        ~ In k withheld -> k <> "useCoT" ->
        own_get runtimeArgs k = Some v ->
        get_property view k = v).
Proof.
  cbv zeta. split; [|split].
  - rewrite own_get_view_passes.
    + apply classifier_args_useCoT.
    + apply classifier_args_NoDup.
    + unfold withheld, auth_keys. simpl. intuition discriminate.
  - intros Habs. rewrite own_get_view_passes.
    + now rewrite classifier_args_default by (congruence || exact Habs).
    + apply classifier_args_NoDup.
    + unfold withheld, auth_keys. simpl. intuition discriminate.
  - intros k v Hnd Hk Hne Hget. rewrite own_get_view_passes.
    + now apply classifier_args_override; [congruence | |].
    + apply classifier_args_NoDup.
    + exact Hk.
Qed.

(** Runtime arguments override the template, [useCoT] apart.  Any other
    property the caller passes ([name], [model], [messages], [choiceScores],
    ...) is the one the invoker receives; a property the caller does not
    pass keeps the value the template gave it. *)
Theorem runtime_overrides t runtimeArgs k :
  k <> "useCoT" ->
  (forall v,
      NoDup (Object_keys runtimeArgs) ->
      own_get runtimeArgs k = Some v ->
      get_property (classifier_args t runtimeArgs) k = v)
  /\ (own_get runtimeArgs k = None ->
      get_property (classifier_args t runtimeArgs) k
      = get_property (template_fields t (effective_useCoT t runtimeArgs)) k).
Proof.
  intros Hk. split.
  - intros v Hnd Hget. now apply classifier_args_override.
  - intros Habs. now apply classifier_args_default.
Qed.

End MoreBuilderFacts.

Section TemperatureFacts.

Context {rt : Runtime} {Store : Type}.
Variable provider : list Event -> JsObject -> JsObject -> ChatCompletion.

Implicit Types (t : TemplateArgs) (runtimeArgs : JsObject)
         (cache : option (ChatCache Store)).

(** The temperature of a template classifier's requests.  Without a runtime
    [temperature] it is the template's, or [0] when the template has none;
    a runtime [temperature] replaces the template's even when it is
    [undefined], in which case the request is sent with [0]. *)
Theorem template_temperature t runtimeArgs cache :
  (own_get runtimeArgs "temperature" = None ->
   requests_satisfy
     (fun params =>
        get_property params "temperature"
        = if truthy (t_temperature t) then t_temperature t else VNumber 0%float)
     (LLMClassifierFromTemplate provider t runtimeArgs cache))
  /\ (forall v,
        NoDup (Object_keys runtimeArgs) ->
        own_get runtimeArgs "temperature" = Some v ->
        requests_satisfy
          (fun params =>
             get_property params "temperature"
             = if truthy v then v else VNumber 0%float)
          (LLMClassifierFromTemplate provider t runtimeArgs cache)).
Proof.
  split.
  - intros Habs. apply OpenAIClassifier_requests. intros params Hparams.
    rewrite (completionParams_temperature_eq _ _ Hparams).
    now rewrite classifier_args_default by (congruence || exact Habs).
  - intros v Hnd Hget. apply OpenAIClassifier_requests. intros params Hparams.
    rewrite (completionParams_temperature_eq _ _ Hparams).
    now rewrite (classifier_args_override t runtimeArgs "temperature" v)
      by (congruence || assumption).
Qed.

End TemperatureFacts.

(** * The further properties on concrete cases *)

(** [Maybe] is not a label of [{Yes: 1, No: 0}]. *)
Lemma parseResponse_rejects_unknown_witness :
  parseResponse (rt := desk) (reply maybe_reply) (VObject yes_no)
  = Throw (Error "Unknown score choice Maybe").
Proof.
  apply (parseResponse_rejects_unknown (rt := desk) (reply maybe_reply)
           {| arguments := maybe_reply; fname := "select_choice" |}
           [("choice", VString "Maybe")] yes_no "Maybe" None);
    reflexivity.
Defined.

(** The score of the chain-of-thought reply is the entry under [Yes]. *)
Lemma parseResponse_sound_witness :
  exists c rationale,
    [("rationale", VString ("it's a pun" ++ newline ++ "puns are funny"));
     ("choice", VString "Yes")]
    = [("rationale", rationale); ("choice", VString (trim c))]
    /\ VNumber 1%float = get_property yes_no (trim c)
    /\ is_undefined (VNumber 1%float) = false
    /\ (rationale = VUndefined \/ exists s, rationale = VString s).
Proof.
  exact (parseResponse_sound (rt := desk) (reply cot_reply) yes_no
           {| score := VNumber 1%float;
              metadata := [("rationale",
                            VString ("it's a pun" ++ newline ++ "puns are funny"));
                           ("choice", VString "Yes")] |}
           eq_refl).
Defined.

(** A single string for [reasons] is a TypeError although [Yes] is a label. *)
Lemma parseResponse_reasons_not_array_witness :
  parseResponse (rt := desk) (reply one_reason_reply) (VObject yes_no)
  = Throw TypeError.
Proof.
  apply (parseResponse_reasons_not_array (rt := desk) (reply one_reason_reply)
           {| arguments := one_reason_reply; fname := "select_choice" |}
           [("reasons", VString "because"); ("choice", VString "Yes")]
           (VString "because") (VObject yes_no));
    reflexivity.
Defined.

(** The number [1] for [choice] is a TypeError. *)
Lemma parseResponse_choice_not_string_witness :
  parseResponse (rt := desk) (reply numeric_choice_reply) (VObject yes_no)
  = Throw TypeError.
Proof.
  apply (parseResponse_choice_not_string (rt := desk) (reply numeric_choice_reply)
           {| arguments := numeric_choice_reply; fname := "select_choice" |}
           [("choice", VNumber 1%float)] None (VObject yes_no));
    reflexivity.
Defined.

(** The request of the direct invocation. *)
Lemma completionParams_shape_witness :
  exists params,
    completionParams (rt := desk) direct = Ok params
    /\ Object_keys params
       = ["model"; "messages"; "functions"; "function_call"; "temperature"; "max_tokens"]
    /\ get_property params "function_call" = VObject [("name", VString "select_choice")]
    /\ get_property params "functions" = get_property direct "classificationFunctions"
    /\ check_model (get_property params "model") = Ok tt.
Proof.
  destruct (completionParams (rt := desk) direct) as [params|e] eqn:H;
    [|vm_compute in H; discriminate].
  exists params. split; [reflexivity|].
  exact (completionParams_shape (rt := desk) direct params H).
Defined.

(** The direct invocation asks for temperature 0.5 and gets it. *)
Lemma completionParams_temperature_witness :
  exists params,
    completionParams (rt := desk) direct = Ok params
    /\ get_property params "temperature" = VNumber 0.5%float.
Proof.
  destruct (completionParams (rt := desk) direct) as [params|e] eqn:H;
    [|vm_compute in H; discriminate].
  exists params. split; [reflexivity|].
  exact (completionParams_temperature (rt := desk) direct params H).
Defined.

(** The two messages of the direct invocation keep their roles. *)
Lemma completionParams_messages_witness :
  exists params ms',
    completionParams (rt := desk) direct = Ok params
    /\ get_property params "messages" = VArray ms'
    /\ Forall2 (fun m m' =>
                  rendered_from m m'
                  /\ (forall c, get_member (rt := desk) m "content" = Ok c ->
                                truthy c = false -> dot m' "content" = VString ""))
         [ VObject [("role", VString "system"); ("content", VString "Be strict.")];
           VObject [("role", VString "user"); ("content", VString "")] ]
         ms'.
Proof.
  destruct (completionParams (rt := desk) direct) as [params|e] eqn:H;
    [|vm_compute in H; discriminate].
  destruct (completionParams_messages (rt := desk) direct params
              [ VObject [("role", VString "system"); ("content", VString "Be strict.")];
                VObject [("role", VString "user"); ("content", VString "")] ])
    as (ms' & Hms & Hall).
  - reflexivity.
  - repeat constructor; simpl; intuition discriminate.
  - exact H.
  - exists params, ms'. auto.
Defined.

(** The Humor template defaults to chain of thought: the long suffix and
    the schema with [reasons]. *)
Lemma prompt_matches_schema_witness :
  get_property (classifier_args humor a_pun) "messages"
  = VArray [ VObject [ ("role", VString "user");
                       ("content",
                        VString ("Is this funny?" ++ newline ++ COT_SUFFIX)) ] ]
  /\ dot (dot (first_function
                 (get_property (classifier_args humor a_pun) "classificationFunctions"))
            "parameters") "required"
     = strings ["reasons"; "choice"]
  /\ dot (dot (dot (dot (first_function
                 (get_property (classifier_args humor a_pun) "classificationFunctions"))
            "parameters") "properties") "choice") "enum"
     = strings ["Yes"; "No"].
Proof.
  exact (prompt_matches_schema humor a_pun eq_refl eq_refl).
Defined.

(** A caller who asks for [gpt-4] gets [gpt-4]. *)
Lemma model_precedence_witness :
  requests_satisfy (Store := option ChatCompletion) (has_model "gpt-4")
    (LLMClassifierFromTemplate (rt := host) says_yes humor
       [("output", VString "a pun"); ("model", VString "gpt-4")] None).
Proof.
  apply (proj1 (model_precedence (rt := host) says_yes humor
                  [("output", VString "a pun"); ("model", VString "gpt-4")] None
                  ltac:(repeat constructor; simpl; intuition discriminate))
               "gpt-4").
  reflexivity.
Defined.

(** The Humor classifier's score for the provider's [Yes]. *)
Lemma template_score_witness :
  VString "Humor" = VString (t_name humor)
  /\ exists c rationale,
       [("rationale", VString ("it's a pun" ++ newline ++ "puns are funny"));
        ("choice", VString "Yes")]
       = [("rationale", rationale); ("choice", VString (trim c))]
       /\ VNumber 1%float = get_property (choiceScores humor) (trim c)
       /\ is_undefined (VNumber 1%float) = false.
Proof.
  apply (template_score (rt := host) says_yes humor a_pun None fresh
           {| name := VString "Humor";
              result :=
                {| score := VNumber 1%float;
                   metadata :=
                     [("rationale",
                       VString ("it's a pun" ++ newline ++ "puns are funny"));
                      ("choice", VString "Yes")] |} |}
           (snd (LLMClassifierFromTemplate (rt := host) says_yes humor a_pun None fresh))).
  - reflexivity.
  - reflexivity.
  - vm_compute. reflexivity.
Defined.

(** With an engine that rejects the prompt the world stays fresh. *)
Lemma template_render_failure_witness :
  LLMClassifierFromTemplate (rt := brittle) says_yes humor a_pun (Some one_slot) fresh
  = (Throw (Error "Unclosed tag"), fresh).
Proof.
  apply (template_render_failure (rt := brittle) says_yes humor a_pun
           (Some one_slot) fresh (Error "Unclosed tag"));
    reflexivity.
Defined.

(** A caller may rename the scorer; the model stays the template's. *)
Lemma runtime_overrides_witness :
  get_property
    (classifier_args humor [("output", VString "a pun"); ("name", VString "Mine")])
    "name"
  = VString "Mine".
Proof.
  apply (proj1 (runtime_overrides humor
                  [("output", VString "a pun"); ("name", VString "Mine")] "name"
                  ltac:(discriminate))).
  - repeat constructor; simpl; intuition discriminate.
  - reflexivity.
Defined.

(** A reply that is plain text, not a function call. *)
Lemma parseResponse_malformed_witness :
  parseResponse (rt := desk)
    {| content := Some "Yes"; function_call := None |} (VObject yes_no)
  = Throw TypeError.
Proof.
  exact (proj1 (parseResponse_malformed (rt := desk)
                  {| content := Some "Yes"; function_call := None |} (VObject yes_no))
               eq_refl).
Defined.

(** A dated variant of a supported model passes the check. *)
Lemma check_model_prefixes_witness :
  check_model (VString ("gpt-4" ++ "-0613")) = Ok tt.
Proof.
  apply (proj1 (proj2 check_model_prefixes) "gpt-4" "-0613").
  simpl. auto.
Defined.

(** The direct invocation's API key is not in the view; its output is. *)
Lemma render_view_isolation_witness :
  own_get (render_view direct) "openAiApiKey" = None
  /\ get_property (render_view direct) "output" = VString "a pun".
Proof.
  split.
  - apply (proj1 (proj2 (render_view_isolation (rt := desk) direct))).
    unfold withheld, auth_keys. simpl. auto.
  - apply (proj2 (proj2 (render_view_isolation (rt := desk) direct)) "output").
    + repeat constructor; simpl; intuition discriminate.
    + unfold withheld, auth_keys. simpl. intuition discriminate.
Defined.

(** The Humor template can interpolate its labels and the caller's output. *)
Lemma template_view_witness :
  get_property (render_view (classifier_args humor a_pun)) "__choices"
  = strings ["Yes"; "No"]
  /\ get_property (render_view (classifier_args humor a_pun)) "output"
     = VString "a pun".
Proof.
  split.
  - exact (proj1 (proj2 (template_view humor a_pun)) eq_refl).
  - apply (proj2 (proj2 (template_view humor a_pun)) "output" (VString "a pun")).
    + repeat constructor; simpl; intuition discriminate.
    + unfold withheld, auth_keys. simpl. intuition discriminate.
    + discriminate.
    + reflexivity.
Defined.

(** A runtime [temperature: undefined] sends temperature 0. *)
Lemma template_temperature_witness :
  requests_satisfy (Store := option ChatCompletion)
    (fun params => get_property params "temperature" = VNumber 0%float)
    (LLMClassifierFromTemplate (rt := host) says_yes humor
       [("output", VString "a pun"); ("temperature", VUndefined)] None).
Proof.
  apply (proj2 (template_temperature (rt := host) says_yes humor
                  [("output", VString "a pun"); ("temperature", VUndefined)] None)
               VUndefined).
  - repeat constructor; simpl; intuition discriminate.
  - reflexivity.
Defined.

(** * What a template classifier sends *)

Section SentFacts.

Context {rt : Runtime} {Store : Type}.
Variable provider : list Event -> JsObject -> JsObject -> ChatCompletion.

Implicit Types (t : TemplateArgs) (runtimeArgs args params : JsObject)
         (w : World Store) (cache : option (ChatCache Store)).

(** Once the request is built it is handed to [cachedChatCompletion]. *)
Lemma OpenAIClassifier_sends (P : JsObject -> Prop) args cache params w :
  completionParams args = Ok params ->
  P params ->
  sends P (OpenAIClassifier provider args cache) w.
Proof.
  intros Hparams HP. unfold sends.
  rewrite OpenAIClassifier_unfold, Hparams.
  destruct (cachedChatCompletion_events provider params (completionOptions args cache) w)
    as (es & Htrace & Hne & Hall).
  exists es.
  destruct (cachedChatCompletion provider params (completionOptions args cache) w)
    as [[resp|e] w']; simpl in *;
    (split; [exact Htrace | split; [exact Hne|]]);
    (eapply Forall_impl; [|exact Hall]); intros ev ->; exact HP.
Qed.

(** The request of an invocation that goes through, with the rendered
    prompt in it. *)
Lemma template_request_text t runtimeArgs text :
  own_get runtimeArgs "messages" = None ->
  check_model (get_property (classifier_args t runtimeArgs) "model") = Ok tt ->
  mustache_render (classifier_prompt t (effective_useCoT t runtimeArgs))
    (render_view (classifier_args t runtimeArgs)) = Ok text ->
  exists params,
    completionParams (classifier_args t runtimeArgs) = Ok params
    /\ get_property params "messages"
       = VArray [ VObject [("role", VString "user"); ("content", VString text)] ]
    /\ get_property params "functions"
       = get_property (classifier_args t runtimeArgs) "classificationFunctions".
Proof.
  intros Hmsg Hmodel Hrender.
  rewrite completionParams_unfold, Hmodel.
  rewrite (classifier_args_default t runtimeArgs "messages")
    by (congruence || exact Hmsg).
  cbn [bind template_fields get_property own_get String.eqb Ascii.eqb Bool.eqb
       map_result render_message get_member].
  rewrite classifier_prompt_truthy, Hrender.
  eexists. split; [reflexivity|]. split; reflexivity.
Qed.

Lemma completionParams_ext args f g :
  (forall template, f template (render_view args) = g template (render_view args)) ->
  completionParams (rt := with_mustache rt f) args
  = completionParams (rt := with_mustache rt g) args.
Proof.
  intros H.
  rewrite (completionParams_unfold (rt := with_mustache rt f)).
  rewrite (completionParams_unfold (rt := with_mustache rt g)).
  destruct (check_model (get_property args "model")) as [[]|e]; simpl; [|reflexivity].
  destruct (get_property args "messages"); try reflexivity.
  rewrite (map_result_ext _ (render_message (rt := with_mustache rt g) (render_view args)));
    [reflexivity|].
  intros m. now apply render_message_ext.
Qed.

Lemma goes_through_request t runtimeArgs :
  goes_through t runtimeArgs ->
  exists params, completionParams (classifier_args t runtimeArgs) = Ok params.
Proof. intros (Hmsg & Hmodel & Hrenders). now apply template_request. Qed.

Lemma template_default_model_sends t runtimeArgs cache w :
  t_model t = VUndefined ->
  own_get runtimeArgs "model" = None ->
  own_get runtimeArgs "messages" = None ->
  renders (classifier_prompt t (effective_useCoT t runtimeArgs)) ->
  sends (has_model "gpt-3.5-turbo")
    (LLMClassifierFromTemplate provider t runtimeArgs cache) w.
Proof.
  intros Ht Hrt Hmsg Hrenders.
  destruct (template_default_model provider t runtimeArgs cache Ht Hrt) as [Hmodel _].
  destruct (template_request t runtimeArgs Hmsg) as [params Hparams];
    [now rewrite Hmodel | exact Hrenders |].
  unfold LLMClassifierFromTemplate.
  apply (OpenAIClassifier_sends _ _ _ params); [exact Hparams|].
  unfold has_model.
  destruct (completionParams_fields _ _ Hparams) as [-> _]. exact Hmodel.
Qed.




End SentFacts.

(** * The amended claims on concrete invocations *)






